(** * gemini-chatbot-api: the chat relay server

    A shallow embedding of the Express server with file support: the
    multer upload configuration ([fileFilter], disk storage), the helpers
    [fileToBase64] and [getMimeType], and the [POST /api/chat] handler
    with its history normalisation, parts composition and staged-file
    cleanup.

    Conventions of the embedding.
    - A JavaScript string is carried as a [string] whose characters are
      its UTF-16 code units below 256 (the Latin-1 range); [trim] and
      [toLowerCase] are the ECMAScript functions restricted to that range.
    - Values that reach the handler through [req.body] are JSON values
      ([jsval]); a number is carried by its canonical string form, the
      only thing the server observes of it besides its truthiness.
    - A [throw] is a result [Throw e]; the file system and the calls made
      to the model client are threaded through a [world]. *)

From Stdlib Require Import String Ascii List NArith Bool Lia.
From stdpp Require Import gmap strings list pretty.

Set Warnings "-register-all".
Open Scope string_scope.

(** ** Strings *)

Module JsString.

Definition code (a : ascii) : N := N_of_ascii a.

(** [WhiteSpace] and [LineTerminator] code units below 256:
    TAB, LF, VT, FF, CR, SP and NBSP. *)
Definition is_space (a : ascii) : bool :=
  let n := code a in
  ((9 <=? n) && (n <=? 13) || (n =? 32) || (n =? 160))%N.

Fixpoint trimStart (s : string) : string :=
  match s with
  | String a r => if is_space a then trimStart r else s
  | EmptyString => EmptyString
  end.

(** [trimEnd] keeps a character when it is not white space or when
    something remains after it. *)
Fixpoint trimEnd (s : string) : string :=
  match s with
  | String a r =>
      match trimEnd r with
      | EmptyString => if is_space a then EmptyString else String a EmptyString
      | r' => String a r'
      end
  | EmptyString => EmptyString
  end.

(** [String.prototype.trim] *)
Definition trim (s : string) : string := trimEnd (trimStart s).

(** Lower-casing of one Latin-1 code unit: A-Z, and the accented capitals
    U+00C0..U+00DE except the multiplication sign U+00D7. *)
Definition lower_char (a : ascii) : ascii :=
  let n := code a in
  if ((65 <=? n) && (n <=? 90))%N then ascii_of_N (n + 32)
  else if ((192 <=? n) && (n <=? 222) && negb (n =? 215))%N then ascii_of_N (n + 32)
  else a.

(** [String.prototype.toLowerCase] *)
Fixpoint toLowerCase (s : string) : string :=
  match s with
  | String a r => String (lower_char a) (toLowerCase r)
  | EmptyString => EmptyString
  end.

(** [String.prototype.startsWith]: [startsWith s p] is [s.startsWith(p)]. *)
Definition startsWith (s p : string) : bool := String.prefix p s.

(** [String.prototype.split] with a one-character separator: the
    segments between the separators, never an empty array. *)
Fixpoint split (sep : ascii) (s : string) : list string :=
  match s with
  | EmptyString => [EmptyString]
  | String a r =>
      if Ascii.eqb a sep then EmptyString :: split sep r
      else match split sep r with
           | seg :: segs => String a seg :: segs
           | [] => [String a EmptyString]
           end
  end.

(** [Array.prototype.pop] as used on a fresh array: its last element,
    [None] for [undefined] on an empty array. *)
Definition pop (l : list string) : option string := List.last (map Some l) None.

(** [Array.prototype.includes] on an array of strings. *)
Definition includes (l : list string) (s : string) : bool :=
  existsb (String.eqb s) l.

(** [Array.prototype.some] *)
Definition some {A} (p : A -> bool) (l : list A) : bool := existsb p l.

End JsString.

Import JsString.

(** ** Exceptions *)

Inductive js_error : Type :=
| TypeError (message : string)
| Error (message : string)
| MulterError (code : string).

Definition error_message (e : js_error) : string :=
  match e with
  | TypeError m => m
  | Error m => m
  | MulterError c => c
  end.

Inductive result (A : Type) : Type :=
| Ok (a : A)
| Throw (e : js_error).
Arguments Ok {A} a.
Arguments Throw {A} e.

Definition is_ok {A} (r : result A) : bool :=
  match r with Ok _ => true | Throw _ => false end.

Definition rbind {A B} (r : result A) (k : A -> result B) : result B :=
  match r with
  | Ok a => k a
  | Throw e => Throw e
  end.

Notation "x <- e ;; k" := (rbind e (fun x => k))
  (at level 100, e at next level, k at level 200, right associativity).

(** ** JSON values as the handler sees them *)

Inductive jsval : Type :=
| JUndefined
| JNull
| JBool (b : bool)
| JNum (repr : string)
| JStr (s : string)
| JArr (elems : list jsval)
| JObj (props : list (string * jsval)).

Module Js.

(** Own property lookup on the property list of an object. *)
Fixpoint lookup_prop (k : string) (props : list (string * jsval)) : option jsval :=
  match props with
  | [] => None
  | (k', v) :: rest => if String.eqb k k' then Some v else lookup_prop k rest
  end.

(** [v.k] for a key [k] that no prototype defines ([role], [text],
    [message], [file], [name]): the own property of an object,
    [undefined] on any other value that has properties, a [TypeError]
    on [null] and [undefined]. *)
Definition get (v : jsval) (k : string) : result jsval :=
  match v with
  | JUndefined => Throw (TypeError ("Cannot read properties of undefined (reading '" +:+ k +:+ "')"))
  | JNull => Throw (TypeError ("Cannot read properties of null (reading '" +:+ k +:+ "')"))
  | JObj props => Ok (default JUndefined (lookup_prop k props))
  | _ => Ok JUndefined
  end.

(** [ToBoolean] *)
Definition truthy (v : jsval) : bool :=
  match v with
  | JUndefined | JNull => false
  | JBool b => b
  | JNum r => negb (String.eqb r "0") && negb (String.eqb r "NaN")
  | JStr s => negb (String.eqb s "")
  | JArr _ | JObj _ => true
  end.

(** [a || b] *)
Definition or (a b : jsval) : jsval := if truthy a then a else b.

(** [ToString].  An array joins the strings of its elements with commas,
    [null] and [undefined] elements giving the empty string; a parsed
    object prints as [[object Object]] unless an own [toString] property
    (never callable in parsed JSON) shadows the inherited method, in
    which case the conversion throws. *)
Fixpoint to_string (v : jsval) : result string :=
  match v with
  | JUndefined => Ok "undefined"
  | JNull => Ok "null"
  | JBool b => Ok (if b then "true" else "false")
  | JNum r => Ok r
  | JStr s => Ok s
  | JArr elems =>
      (fix join (l : list jsval) : result string :=
         let item (x : jsval) : result string :=
           match x with
           | JUndefined | JNull => Ok ""
           | _ => to_string x
           end in
         match l with
         | [] => Ok ""
         | [x] => item x
         | x :: rest =>
             rbind (item x) (fun s =>
             rbind (join rest) (fun t => Ok (s +:+ "," +:+ t)))
         end) elems
  | JObj props =>
      match lookup_prop "toString" props with
      | Some _ => Throw (TypeError "Cannot convert object to primitive value")
      | None => Ok "[object Object]"
      end
  end.

(** [Array.isArray] *)
Definition isArray (v : jsval) : bool :=
  match v with JArr _ => true | _ => false end.

(** The elements of an array (of no use on another value). *)
Definition elements (v : jsval) : list jsval :=
  match v with JArr l => l | _ => [] end.

End Js.

(** ** Upload configuration and helpers *)

(** What multer hands to [fileFilter] and to the storage engine. *)
Record upload : Type := mkUpload {
  fieldname : string;
  originalname : string;
  mimetype : string;
  bytes : string
}.

Definition allowedTypes : list string := ["audio/"; "application/pdf"].

(** [fileFilter]: [Ok true] is [cb(null, true)], [Throw e] is [cb(e)]. *)
Definition fileFilter (file : upload) : result bool :=
  let isValidType := some (fun type => startsWith (mimetype file) type) allowedTypes in
  if isValidType then Ok true
  else Throw (Error "File type not supported. Only audio and PDF files are allowed.").

(** [getMimeType] *)
Definition getMimeType (filePath : string) : string :=
  let ext := toLowerCase (default EmptyString (pop (split "." filePath))) in
  if String.eqb ext "pdf" then "application/pdf"
  else if includes ["mp3"; "wav"; "m4a"; "ogg"] ext
       then "audio/" +:+ (if String.eqb ext "m4a" then "mp4" else ext)
  else "application/octet-stream".

(** ** History normalisation (the [chatHistory] mapping) *)

(** One element of [parts] in a history entry: [{ text }]. *)
Record text_part : Type := mkText { text : string }.

(** A history entry as handed to [startChat]: [{ role, parts }]. *)
Record content : Type := mkContent {
  role : string;
  parts : list text_part
}.

(** [v === s] for a string literal [s]. *)
Definition strict_eq_str (v : jsval) (s : string) : bool :=
  match v with
  | JStr s' => String.eqb s' s
  | _ => false
  end.

(** The callback of [history.map]; [None] is the [null] it returns for a
    role that is neither ['user'] nor ['model']. *)
Definition map_turn (msg : jsval) : result (option content) :=
  msg_role <- Js.get msg "role" ;;
  if strict_eq_str msg_role "user" then
    msg_file <- Js.get msg "file" ;;
    msg_text <- Js.get msg "text" ;;
    txt <- (if Js.truthy msg_file then
              t <- Js.to_string (Js.or msg_text (JStr "")) ;;
              file_name <- Js.get msg_file "name" ;;
              n <- Js.to_string (Js.or file_name (JStr "uploaded file")) ;;
              Ok (trim (t +:+ " [File: " +:+ n +:+ "]"))
            else
              msg_message <- Js.get msg "message" ;;
              Js.to_string (Js.or (Js.or msg_text msg_message) (JStr ""))) ;;
    Ok (Some {| role := "user"; parts := [ {| text := txt |} ] |})
  else if strict_eq_str msg_role "model" then
    msg_text <- Js.get msg "text" ;;
    msg_message <- Js.get msg "message" ;;
    txt <- Js.to_string (Js.or (Js.or msg_text msg_message) (JStr "")) ;;
    Ok (Some {| role := "model"; parts := [ {| text := txt |} ] |})
  else Ok None.

(** The predicate of [.filter]: [msg !== null && msg.parts[0].text.length > 0].
    Reading [parts[0].text] of an entry without parts would throw. *)
Definition keep_turn (msg : option content) : result bool :=
  match msg with
  | None => Ok false
  | Some c =>
      match parts c with
      | p :: _ => Ok (0 <? String.length (text p))%nat
      | [] => Throw (TypeError "Cannot read properties of undefined (reading 'text')")
      end
  end.

(** [Array.prototype.map] with a callback that may throw. *)
Fixpoint map_r {A B} (f : A -> result B) (l : list A) : result (list B) :=
  match l with
  | [] => Ok []
  | x :: rest =>
      y <- f x ;;
      ys <- map_r f rest ;;
      Ok (y :: ys)
  end.

(** [Array.prototype.filter] with a predicate that may throw. *)
Fixpoint filter_r {A} (p : A -> result bool) (l : list A) : result (list A) :=
  match l with
  | [] => Ok []
  | x :: rest =>
      b <- p x ;;
      ys <- filter_r p rest ;;
      Ok (if b then x :: ys else ys)
  end.

(** After the filter no [null] is left: the array holds entries. *)
Definition entries (l : list (option content)) : list content := omap id l.

(** The value of [chatHistory] after lines 85-106 of the handler. *)
Definition normalize (history : jsval) : result (list content) :=
  if Js.truthy history && Js.isArray history
     && (0 <? List.length (Js.elements history))%nat
  then
    mapped <- map_r map_turn (Js.elements history) ;;
    kept <- filter_r keep_turn mapped ;;
    Ok (entries kept)
  else Ok [].

(** Building the JSON of a turn. *)
Definition obj (props : list (string * jsval)) : jsval := JObj props.

Definition user_entry (t : string) : content :=
  {| role := "user"; parts := [ {| text := t |} ] |}.

Definition model_entry (t : string) : content :=
  {| role := "model"; parts := [ {| text := t |} ] |}.

(** ** Base64 ([Buffer.prototype.toString('base64')]) *)

Definition base64_alphabet : string :=
  "ABCDEFGHIJKLMNOPQRSTUVWXYZabcdefghijklmnopqrstuvwxyz0123456789+/".

Definition sextet (n : N) : ascii :=
  default "="%char (String.get (N.to_nat (n mod 64)) base64_alphabet).

Fixpoint base64 (s : string) : string :=
  match s with
  | String a (String b (String c r)) =>
      let n := (code a * 65536 + code b * 256 + code c)%N in
      String (sextet (n / 262144)) (String (sextet (n / 4096))
        (String (sextet (n / 64)) (String (sextet n) (base64 r))))
  | String a (String b EmptyString) =>
      let n := (code a * 65536 + code b * 256)%N in
      String (sextet (n / 262144)) (String (sextet (n / 4096))
        (String (sextet (n / 64)) "="))
  | String a EmptyString =>
      let n := (code a * 65536)%N in
      String (sextet (n / 262144)) (String (sextet (n / 4096)) "==")
  | EmptyString => EmptyString
  end.

(** ** The world of one request: disk and model client *)

(** A part of the message sent to the model. *)
Inductive part : Type :=
| InlineData (data mimeType : string)
| TextPart (text : jsval).

(** [chatConfig]: [None] when the [history] field is not set. *)
Record chat_config : Type := mkConfig { cfg_history : option (list content) }.

(** What the handler asks of the model client, in order. *)
Inductive upstream_call : Type :=
| StartChat (cfg : chat_config)
| SendMessage (cfg : chat_config) (message_parts : list part).

(** The model client is outside the program: its behaviour is given.
    [send_outcome] stands for [chat.sendMessage(parts)], awaiting
    [result.response] and reading [response.text()]. *)
Record model_client : Type := mkClient {
  start_outcome : chat_config -> result unit;
  send_outcome : chat_config -> list part -> result string
}.

Record world : Type := mkWorld {
  files : gmap string string;
  calls : list upstream_call
}.

Definition M (A : Type) : Type := world -> result A * world.

Definition ret {A} (a : A) : M A := fun w => (Ok a, w).

Definition throw {A} (e : js_error) : M A := fun w => (Throw e, w).

Definition bind {A B} (m : M A) (k : A -> M B) : M B :=
  fun w =>
    match m w with
    | (Ok a, w') => k a w'
    | (Throw e, w') => (Throw e, w')
    end.

Definition lift {A} (r : result A) : M A := fun w => (r, w).

Notation "x <~ e ;; k" := (bind e (fun x => k))
  (at level 100, e at next level, k at level 200, right associativity).

Module Fs.

(** [fs.existsSync] *)
Definition existsSync (p : string) : M bool :=
  fun w => (Ok (bool_decide (is_Some (files w !! p))), w).

(** [fs.readFileSync] *)
Definition readFileSync (p : string) : M string :=
  fun w =>
    match files w !! p with
    | Some b => (Ok b, w)
    | None => (Throw (Error ("ENOENT: no such file or directory, open '" +:+ p +:+ "'")), w)
    end.

(** [fs.unlinkSync] *)
Definition unlinkSync (p : string) : M unit :=
  fun w =>
    match files w !! p with
    | Some _ => (Ok tt, {| files := delete p (files w); calls := calls w |})
    | None => (Throw (Error ("ENOENT: no such file or directory, unlink '" +:+ p +:+ "'")), w)
    end.

(** Writing a whole file, as the disk storage of multer does. *)
Definition writeFile (p : string) (b : string) : M unit :=
  fun w => (Ok tt, {| files := <[p := b]> (files w); calls := calls w |}).

End Fs.

Module Model.

(** [model.startChat(chatConfig)] *)
Definition startChat (client : model_client) (cfg : chat_config) : M unit :=
  fun w => (start_outcome client cfg,
            {| files := files w; calls := (calls w ++ [StartChat cfg])%list |}).

(** [chat.sendMessage(parts)] up to [response.text()] *)
Definition sendMessage (client : model_client) (cfg : chat_config)
    (message_parts : list part) : M string :=
  fun w => (send_outcome client cfg message_parts,
            {| files := files w; calls := (calls w ++ [SendMessage cfg message_parts])%list |}).

End Model.

(** [fileToBase64] *)
Definition fileToBase64 (filePath : string) : M string :=
  fileBuffer <~ Fs.readFileSync filePath ;;
  ret (base64 fileBuffer).

(** ** Staging an upload ([upload.single('file')]) *)

(** What the process reads from its surroundings while staging:
    [__dirname], [Date.now()] and [Math.round(Math.random() * 1E9)]. *)
Record env : Type := mkEnv {
  dirname : string;
  now : N;
  random : N
}.

(** [req.file] *)
Record staged_file : Type := mkStaged {
  destination : string;
  filename : string;
  path : string
}.

(** [limits.fileSize] *)
Definition fileSize : N := 50 * 1024 * 1024.

(** [storage.destination] ([join(__dirname, 'uploads')]) *)
Definition uploadDir (e : env) : string := dirname e +:+ "/uploads".

(** [storage.filename] *)
Definition storage_filename (e : env) (file : upload) : string :=
  let uniqueSuffix := pretty (now e) +:+ "-" +:+ pretty (random e) in
  fieldname file +:+ "-" +:+ uniqueSuffix +:+ "-" +:+ originalname file.

(** The multer middleware for one optional file part.  multer (a
    dependency, not part of this repository) skips a part without a file
    name, refuses a part under another field name, then asks [fileFilter],
    and only then hands the stream to the disk storage; a stream that
    passes [limits.fileSize] is removed again and the request fails. *)
Definition upload_single (e : env) (field : string) (u : option upload)
    : M (option staged_file) :=
  match u with
  | None => ret None
  | Some file =>
      if String.eqb (originalname file) ""
      then ret None
      else if negb (String.eqb (fieldname file) field)
      then throw (MulterError "LIMIT_UNEXPECTED_FILE")
      else
        _ <~ lift (fileFilter file) ;;
        if (fileSize <? N.of_nat (String.length (bytes file)))%N
        then throw (MulterError "LIMIT_FILE_SIZE")
        else
          let dest := uploadDir e in
          let name := storage_filename e file in
          let p := dest +:+ "/" +:+ name in
          _ <~ Fs.writeFile p (bytes file) ;;
          ret (Some {| destination := dest; filename := name; path := p |})
  end.

(** ** [POST /api/chat] *)

(** What the handler has bound after lines 75-76: [history], [message]
    and [file]. *)
Record request : Type := mkRequest {
  body_history : jsval;
  body_message : jsval;
  req_file : option staged_file
}.

(** [req] as Express hands it to the handler: [req.body], which is
    [undefined] when no body parser handled the request, and [req.file]. *)
Record express_req : Type := mkExpress {
  req_body : jsval;
  req_upload : option staged_file
}.

(** The request whose body a parser has filled with [history] and
    [message]; a [request] is read as this [req] wherever the handler is
    applied to it. *)
Definition parsed (r : request) : express_req :=
  {| req_body := obj [("history", body_history r); ("message", body_message r)];
     req_upload := req_file r |}.

Coercion parsed : request >-> express_req.

(** [const { history, message } = req.body] *)
Definition destructure (req_body : jsval) : result (jsval * jsval) :=
  match req_body with
  | JUndefined =>
      Throw (TypeError "Cannot destructure property 'history' of 'req.body' as it is undefined.")
  | JNull =>
      Throw (TypeError "Cannot destructure property 'history' of 'req.body' as it is null.")
  | _ =>
      history <- Js.get req_body "history" ;;
      message <- Js.get req_body "message" ;;
      Ok (history, message)
  end.

(** The JSON bodies the handler sends. *)
Inductive body : Type :=
| ErrorBody (error : string)
| MessageBody (message : string)
| FailureBody (error details : string).

Record response : Type := mkResponse {
  status : nat;
  json : body
}.

Definition default_prompt : string := "Please analyze this file and provide insights.".

(** [if (file && fs.existsSync(file.path)) fs.unlinkSync(file.path)] *)
Definition cleanup (file : option staged_file) : M unit :=
  match file with
  | Some f =>
      present <~ Fs.existsSync (path f) ;;
      if present then Fs.unlinkSync (path f) else ret tt
  | None => ret tt
  end.

(** The [try] block from line 76 on, with [history] and [message] bound. *)
Definition handler_steps (client : model_client) (req : request) : M response :=
  let history := body_history req in
  let message := body_message req in
  let file := req_file req in
  if negb (Js.truthy message) && negb (bool_decide (is_Some file))
  then ret {| status := 400; json := ErrorBody "Message or file is required" |}
  else
    chatHistory <~ lift (normalize history) ;;
    let chatConfig :=
      {| cfg_history := if (0 <? List.length chatHistory)%nat
                        then Some chatHistory else None |} in
    _ <~ Model.startChat client chatConfig ;;
    file_parts <~
      match file with
      | Some f =>
          fileData <~ fileToBase64 (path f) ;;
          let mimeType := getMimeType (path f) in
          ret [InlineData fileData mimeType]
      | None => ret []
      end ;;
    let message_parts :=
      (file_parts ++
       (if Js.truthy message then [TextPart message]
        else if bool_decide (is_Some file) then [TextPart (JStr default_prompt)]
        else []))%list in
    reply <~ Model.sendMessage client chatConfig message_parts ;;
    _ <~ cleanup file ;;
    ret {| status := 200; json := MessageBody reply |}.

(** The [try] block of the handler: line 75, then the rest. *)
Definition handler_try (client : model_client) (req : express_req) : M response :=
  fields <~ lift (destructure (req_body req)) ;;
  handler_steps client {| body_history := fields.1;
                          body_message := fields.2;
                          req_file := req_upload req |}.

(** The handler with its [catch] block.  A throw that leaves the [catch]
    block would leave the request without a response. *)
Definition chat_handler (client : model_client) (req : express_req) : M response :=
  fun w =>
    match handler_try client req w with
    | (Ok r, w') => (Ok r, w')
    | (Throw e, w') =>
        (_ <~ cleanup (req_upload req) ;;
         ret {| status := 500;
                json := FailureBody "Failed to process chat message" (error_message e) |}) w'
    end.

(** A request as it arrives, before multer has run, with the fields of
    the body as the parser delivers them (multer for a multipart form,
    [express.json()] for a JSON body). *)
Record http_request : Type := mkHttp {
  form_history : jsval;
  form_message : jsval;
  form_file : option upload
}.

(** How the route ends: the handler responded, or an error went to the
    error handling of Express (multer refused the upload, or the handler
    itself threw). *)
Inductive outcome : Type :=
| Responded (r : response)
| Failed (e : js_error).

(** [app.post('/api/chat', upload.single('file'), handler)] *)
Definition post_api_chat (client : model_client) (e : env) (http : http_request)
    : world -> outcome * world :=
  fun w =>
    match upload_single e "file" (form_file http) w with
    | (Throw err, w') => (Failed err, w')
    | (Ok file, w') =>
        let req := {| body_history := form_history http;
                      body_message := form_message http;
                      req_file := file |} in
        match chat_handler client req w' with
        | (Ok r, w'') => (Responded r, w'')
        | (Throw err, w'') => (Failed err, w'')
        end
    end.

(** *** Clients, environment and uploads used in the examples *)

Definition echo_client : model_client :=
  {| start_outcome := fun _ => Ok tt;
     send_outcome := fun _ _ => Ok "ok" |}.

Definition failing_client : model_client :=
  {| start_outcome := fun _ => Ok tt;
     send_outcome := fun _ _ => Throw (Error "API key not valid") |}.

Definition test_env : env := {| dirname := "/app"; now := 1700000000000; random := 42 |}.

Definition empty_world : world := {| files := ∅; calls := [] |}.

Definition pdf_upload : upload :=
  {| fieldname := "file"; originalname := "report.pdf";
     mimetype := "application/pdf"; bytes := "Man" |}.

Definition pdf_path : string := "/app/uploads/file-1700000000000-42-report.pdf".


(** ** Definitions used to state the properties *)

(** The extension table of the file staging unit: what an already
    lower-cased extension stands for. *)
Definition mime_of_ext (ext : string) : string :=
  if String.eqb ext "pdf" then "application/pdf"
  else if String.eqb ext "mp3" || String.eqb ext "wav" || String.eqb ext "ogg"
       then "audio/" +:+ ext
  else if String.eqb ext "m4a" then "audio/mp4"
  else "application/octet-stream".


(** The role of a turn when it is one the model knows. *)
Definition turn_role (msg : jsval) : option string :=
  match Js.get msg "role" with
  | Ok (JStr r) =>
      if String.eqb r "user" || String.eqb r "model" then Some r else None
  | _ => None
  end.

(** [msg.k], [undefined] where the read is not possible. *)
Definition field (msg : jsval) (k : string) : jsval :=
  match Js.get msg k with
  | Ok v => v
  | Throw _ => JUndefined
  end.

(** A turn carries an attachment when its [file] is truthy. *)
Definition has_attachment (msg : jsval) : bool := Js.truthy (field msg "file").

(** The text of a turn without attachment: [text], else [message], else
    the empty string, converted to a string. *)
Definition plain_text (msg : jsval) : result string :=
  Js.to_string (Js.or (Js.or (field msg "text") (field msg "message")) (JStr "")).

(** The text of a user turn with an attachment. *)
Definition attachment_text (msg : jsval) : result string :=
  t <- Js.to_string (Js.or (field msg "text") (JStr "")) ;;
  n <- Js.to_string (Js.or (field (field msg "file") "name") (JStr "uploaded file")) ;;
  Ok (trim (t +:+ " [File: " +:+ n +:+ "]")).

(** The text a turn contributes to the history. *)
Definition derived_text (msg : jsval) : result string :=
  if strict_eq_str (field msg "role") "user" && has_attachment msg
  then attachment_text msg
  else plain_text msg.

(** What a turn leaves in the normalised history: nothing when its role is
    neither ['user'] nor ['model'] or when its derived text is empty,
    otherwise one entry with that role and text. *)
Definition kept_entry (msg : jsval) : option content :=
  match turn_role msg, derived_text msg with
  | Some r, Ok t =>
      if String.eqb t "" then None
      else Some {| role := r; parts := [ {| text := t |} ] |}
  | _, _ => None
  end.

(** A turn converts when the callback of [map] returns on it. *)
Definition turn_converts (msg : jsval) : Prop := is_ok (map_turn msg) = true.

(** A plain turn [{ role, text }]. *)
Definition plain_turn (r t : string) : jsval :=
  obj [("role", JStr r); ("text", JStr t)].

(** The entry with a given role and text. *)
Definition entry (r t : string) : content :=
  {| role := r; parts := [ {| text := t |} ] |}.

(** The object that [normalize] builds for an entry:
    [{ role, parts: [{ text }] }]. *)
Definition content_js (c : content) : jsval :=
  obj [("role", JStr (role c));
       ("parts", JArr (map (fun p => obj [("text", JStr (text p))]) (parts c)))].

(** An entry read back as a plain turn [{ role, text }], the text being
    that of its parts. *)
Definition content_as_turn (c : content) : jsval :=
  plain_turn (role c) (String.concat "" (map text (parts c))).

(** A plain pair is well formed: a known role and a non-empty text. *)
Definition plain_ok (rt : string * string) : Prop :=
  (rt.1 = "user" \/ rt.1 = "model") /\ rt.2 <> "".

(** *** Trimming and conversion to text, stated apart from the code *)

(** The white space of ECMAScript among the code units below 256, listed
    by code: TAB, LF, VT, FF, CR, SP and NBSP. *)
Definition white_space (a : ascii) : bool :=
  existsb (N.eqb (code a)) [9%N; 10%N; 11%N; 12%N; 13%N; 32%N; 160%N].

Fixpoint all_space (s : string) : bool :=
  match s with
  | String a r => white_space a && all_space r
  | EmptyString => true
  end.

(** [t] does not begin with white space. *)
Definition starts_clean (t : string) : Prop :=
  match t with
  | String a _ => white_space a = false
  | EmptyString => True
  end.

(** [t] does not end with white space. *)
Fixpoint ends_clean (t : string) : Prop :=
  match t with
  | EmptyString => True
  | String a EmptyString => white_space a = false
  | String _ r => ends_clean r
  end.

(** [t] is [s] trimmed: [s] without the white space at its two ends. *)
Definition trimmed_of (s t : string) : Prop :=
  exists l r, s = l +:+ t +:+ r
              /\ all_space l = true /\ all_space r = true
              /\ starts_clean t /\ ends_clean t.

(** [s] is the text of [v || fallback]: the string of [v] when [v] is
    truthy, the fallback otherwise. *)
Definition shown (v : jsval) (fallback s : string) : Prop :=
  if Js.truthy v then Js.to_string v = Ok s else s = fallback.

(** *** Concrete turns, uploads and disks *)

Definition mixed_history : list jsval :=
  [obj [("role", JStr "system"); ("text", JStr "be brief")];
   obj [("role", JStr "user"); ("text", JStr "hi")];
   obj [("role", JStr "model"); ("text", JStr "")];
   obj [("role", JStr "model"); ("text", JStr "hello")]].

Definition report_turn : jsval :=
  obj [("role", JStr "user"); ("text", JStr "summarize");
       ("file", obj [("name", JStr "report.pdf"); ("type", JStr "application/pdf");
                     ("size", JNum "1024"); ("data", JStr "JVBERi0xLjQK")])].

(** A user turn whose text begins with white space and whose file has no
    name. *)
Definition padded_turn : jsval :=
  obj [("role", JStr "user"); ("text", JStr "  hello");
       ("file", obj [("size", JNum "12")])].

Definition nameless_turn : jsval :=
  obj [("role", JStr "user"); ("text", JStr ""); ("file", obj [("size", JNum "12")])].

Definition unsupported : js_error :=
  Error "File type not supported. Only audio and PDF files are allowed.".

Definition text_upload : upload :=
  {| fieldname := "file"; originalname := "notes.txt";
     mimetype := "text/plain"; bytes := "hello" |}.

Definition pdfx_upload : upload :=
  {| fieldname := "file"; originalname := "sheet.bin";
     mimetype := "application/pdfx"; bytes := "hello" |}.

Definition staged_pdf : staged_file :=
  {| destination := "/app/uploads";
     filename := "file-1700000000000-42-report.pdf";
     path := pdf_path |}.

Definition staged_world : world :=
  {| files := {[ pdf_path := "Man" ]}; calls := [] |}.

(** ** What the handler leaves behind *)

(** The disk after [cleanup]: the staged file, if any, is gone. *)
Definition cleaned (file : option staged_file) (fs : gmap string string)
    : gmap string string :=
  match file with
  | Some f => delete (path f) fs
  | None => fs
  end.

(** The body of the 500 response of the [catch] block. *)
Definition failure (e : js_error) : response :=
  {| status := 500;
     json := FailureBody "Failed to process chat message" (error_message e) |}.

(** The error of [readFileSync] on a missing path. *)
Definition enoent_open (p : string) : js_error :=
  Error ("ENOENT: no such file or directory, open '" +:+ p +:+ "'").

(** The text part that follows the file part, if any. *)
Definition text_parts (message : jsval) (file : option staged_file) : list part :=
  if Js.truthy message then [TextPart message]
  else if bool_decide (is_Some file) then [TextPart (JStr default_prompt)]
  else [].

(** The configuration built from a normalised history. *)
Definition config_of (chatHistory : list content) : chat_config :=
  {| cfg_history := if (0 <? List.length chatHistory)%nat
                    then Some chatHistory else None |}.

(** The response of the handler and the calls it adds, read off the disk
    it starts from; [handler_spec] below shows that the handler computes
    exactly this. *)
Definition handler_result (client : model_client) (req : request)
    (fs : gmap string string) : response * list upstream_call :=
  let message := body_message req in
  let file := req_file req in
  if negb (Js.truthy message) && negb (bool_decide (is_Some file))
  then ({| status := 400; json := ErrorBody "Message or file is required" |}, [])
  else
    match normalize (body_history req) with
    | Throw e => (failure e, [])
    | Ok chatHistory =>
        let cfg := config_of chatHistory in
        match start_outcome client cfg with
        | Throw e => (failure e, [StartChat cfg])
        | Ok _ =>
            let read : result (list part) :=
              match file with
              | Some f =>
                  match fs !! path f with
                  | Some b => Ok [InlineData (base64 b) (getMimeType (path f))]
                  | None => Throw (enoent_open (path f))
                  end
              | None => Ok []
              end in
            match read with
            | Throw e => (failure e, [StartChat cfg])
            | Ok file_parts =>
                let message_parts := (file_parts ++ text_parts message file)%list in
                let sent := [StartChat cfg; SendMessage cfg message_parts] in
                match send_outcome client cfg message_parts with
                | Throw e => (failure e, sent)
                | Ok reply => ({| status := 200; json := MessageBody reply |}, sent)
                end
            end
        end
    end.

(** An entry is well formed for the model: a known role, one part, a
    non-empty text. *)
Definition valid_entry (c : content) : Prop :=
  (role c = "user" \/ role c = "model")
  /\ exists t, parts c = [ {| text := t |} ] /\ t <> "".

(** The six MIME types [getMimeType] can return. *)
Definition mime_types : list string :=
  ["application/pdf"; "audio/mp3"; "audio/wav"; "audio/mp4"; "audio/ogg";
   "application/octet-stream"].

(** ** The browser client ([public/script.js]) *)

(** The [File] selected in the form, as far as the script reads it. *)
Record client_file : Type := mkClientFile {
  file_name : string;
  file_type : string;
  file_size : N;
  file_bytes : string
}.

(** The guard of the submit handler: something to send. *)
Definition submit_allowed (messageText : string) (selectedFile : option client_file) : bool :=
  negb (String.eqb messageText "") || bool_decide (is_Some selectedFile).

(** [historyEntry], the user turn pushed onto [chatHistory] after a reply. *)
Definition historyEntry (messageText : string) (fileToSend : option client_file) : jsval :=
  let name := match fileToSend with Some f => file_name f | None => "" end in
  let entry_text := if negb (String.eqb messageText "") then messageText
                    else "File: " +:+ name in
  obj ([("role", JStr "user"); ("text", JStr entry_text)] ++
       match fileToSend with
       | Some f => [("file", obj [("name", JStr (file_name f));
                                  ("type", JStr (file_type f));
                                  ("size", JNum (pretty (file_size f)))])]
       | None => []
       end)%list.

(** [{ role: 'model', text: data.message }] *)
Definition modelEntry (reply : string) : jsval :=
  obj [("role", JStr "model"); ("text", JStr reply)].

(** The file part of the form: the name and type of the [File]; the
    browser declares [application/octet-stream] for a file without type. *)
Definition form_upload (f : client_file) : upload :=
  {| fieldname := "file";
     originalname := file_name f;
     mimetype := if String.eqb (file_type f) "" then "application/octet-stream"
                 else file_type f;
     bytes := file_bytes f |}.

(** The [FormData] sent to [/api/chat] as multer delivers it: [message]
    only when there is a text, [file] only when one is selected, and
    [history] always, as the string [JSON.stringify(chatHistory)].  The
    serialiser is a parameter: the server never looks inside the string. *)
Definition client_request (stringify : list jsval -> string) (chatHistory : list jsval)
    (messageText : string) (fileToSend : option client_file) : http_request :=
  {| form_history := JStr (stringify chatHistory);
     form_message := if negb (String.eqb messageText "") then JStr messageText
                     else JUndefined;
     form_file := form_upload <$> fileToSend |}.

(** ** Further concrete values *)

(** A model client that refuses to start the chat. *)
Definition refusing_client : model_client :=
  {| start_outcome := fun _ => Throw (Error "First content should be with role 'user'");
     send_outcome := fun _ _ => Ok "ok" |}.



(** The configuration a call was made with. *)
Definition call_config (c : upstream_call) : chat_config :=
  match c with
  | StartChat cfg => cfg
  | SendMessage cfg _ => cfg
  end.

(** A file picked in the browser and a serialiser for the examples. *)
Definition picked_file : client_file :=
  {| file_name := "a.pdf"; file_type := "application/pdf"; file_size := 3;
     file_bytes := "Man" |}.

Definition opaque_json (chatHistory : list jsval) : string := "[...]".

(** ** Reading base64 back *)

(** The position of a character in a string. *)
Fixpoint index_of (c : ascii) (s : string) : option N :=
  match s with
  | EmptyString => None
  | String a r => if Ascii.eqb a c then Some 0%N else N.succ <$> index_of c r
  end.

(** The six bits a base64 character stands for. *)
Definition unsextet (c : ascii) : option N := index_of c base64_alphabet.

(** The byte with the low eight bits of a number. *)
Definition byte (n : N) : ascii := ascii_of_N (n mod 256).

(** The standard decoder: groups of four characters give three bytes, a
    final group padded with one or two [=] gives two or one. *)
Fixpoint base64_decode (s : string) : option string :=
  match s with
  | EmptyString => Some EmptyString
  | String a (String b (String c (String d r))) =>
      match unsextet a, unsextet b with
      | Some x, Some y =>
          if Ascii.eqb c "=" then
            if Ascii.eqb d "=" && String.eqb r ""
            then let m := (x * 262144 + y * 4096)%N in
                 Some (String (byte (m / 65536)) EmptyString)
            else None
          else
            match unsextet c with
            | Some z =>
                if Ascii.eqb d "=" then
                  if String.eqb r ""
                  then let m := (x * 262144 + y * 4096 + z * 64)%N in
                       Some (String (byte (m / 65536))
                               (String (byte (m / 256)) EmptyString))
                  else None
                else
                  match unsextet d, base64_decode r with
                  | Some t, Some rest =>
                      let m := (x * 262144 + y * 4096 + z * 64 + t)%N in
                      Some (String (byte (m / 65536))
                              (String (byte (m / 256)) (String (byte m) rest)))
                  | _, _ => None
                  end
            | None => None
            end
      | _, _ => None
      end
  | _ => None
  end.

(** * Examples *)

Example getMimeType_pdf : getMimeType "uploads/file-1-2-Report.PDF" = "application/pdf".
Proof. reflexivity. Qed.

Example getMimeType_m4a : getMimeType "uploads/file-1-2-voice.m4a" = "audio/mp4".
Proof. reflexivity. Qed.

Example getMimeType_txt : getMimeType "uploads/file-1-2-notes.txt" = "application/octet-stream".
Proof. reflexivity. Qed.

Example to_string_array :
  Js.to_string (JArr [JNum "1"; JNull; JArr [JStr "a"; JStr "b"]]) = Ok "1,,a,b".
Proof. reflexivity. Qed.

Example trim_example : trim "  a b  " = "a b".
Proof. reflexivity. Qed.

Example normalize_report :
  normalize (JArr [obj [("role", JStr "user"); ("text", JStr "summarize");
                        ("file", obj [("name", JStr "report.pdf");
                                      ("type", JStr "application/pdf");
                                      ("size", JNum "1024")])]])
  = Ok [user_entry "summarize [File: report.pdf]"].
Proof. reflexivity. Qed.

Example normalize_mixed :
  normalize (JArr [obj [("role", JStr "system"); ("text", JStr "be brief")];
                   obj [("role", JStr "user"); ("text", JStr "hi")];
                   obj [("role", JStr "model"); ("text", JStr "")];
                   JStr "stray";
                   obj [("role", JStr "model"); ("message", JStr "hello")]])
  = Ok [user_entry "hi"; model_entry "hello"].
Proof. reflexivity. Qed.

Example normalize_null_turn :
  normalize (JArr [JNull])
  = Throw (TypeError "Cannot read properties of null (reading 'role')").
Proof. reflexivity. Qed.

Example normalize_not_array :
  normalize (JStr "[]") = Ok [].
Proof. reflexivity. Qed.

Example base64_Man : base64 "Man" = "TWFu". Proof. reflexivity. Qed.

Example base64_Ma : base64 "Ma" = "TWE=". Proof. reflexivity. Qed.

Example base64_M : base64 "M" = "TQ==". Proof. reflexivity. Qed.

Example run_success :
  let '(o, w) := post_api_chat echo_client test_env
                   {| form_history := JUndefined; form_message := JUndefined;
                      form_file := Some pdf_upload |} empty_world in
  o = Responded {| status := 200; json := MessageBody "ok" |}
  /\ files w !! pdf_path = None
  /\ calls w = [StartChat {| cfg_history := None |};
                SendMessage {| cfg_history := None |}
                  [InlineData "TWFu" "application/pdf"; TextPart (JStr default_prompt)]].
Proof. vm_compute. repeat split. Qed.

Example run_upstream_failure :
  let '(o, w) := post_api_chat failing_client test_env
                   {| form_history := JUndefined; form_message := JStr "hi";
                      form_file := Some pdf_upload |} empty_world in
  o = Responded {| status := 500;
                   json := FailureBody "Failed to process chat message" "API key not valid" |}
  /\ files w !! pdf_path = None.
Proof. vm_compute. repeat split. Qed.

(** * Properties *)

Section Handler.

Variable client : model_client.

Lemma chat_handler_parsed (r : request) (w : world) :
  chat_handler client r w
  = match handler_steps client r w with
    | (Ok x, w') => (Ok x, w')
    | (Throw e, w') =>
        (_ <~ cleanup (req_file r) ;;
         ret {| status := 500;
                json := FailureBody "Failed to process chat message" (error_message e) |}) w'
    end.
Proof. destruct r as [h m file]. reflexivity. Qed.

Lemma cleanup_removes (f : staged_file) (w : world) :
  exists w', cleanup (Some f) w = (Ok tt, w')
             /\ files w' !! path f = None /\ calls w' = calls w.
Proof.
  unfold cleanup, bind, Fs.existsSync, Fs.unlinkSync, ret.
  destruct (files w !! path f) as [b|] eqn:Hf.
  - rewrite bool_decide_eq_true_2 by eauto. rewrite Hf.
    eexists; split; [reflexivity|]. simpl. split; [apply lookup_delete_eq | reflexivity].
  - rewrite bool_decide_eq_false_2 by (intros [? ?]; congruence).
    eexists; split; [reflexivity|]. auto.
Qed.

Lemma handler_missing_input (h m : jsval) (w : world) :
  Js.truthy m = false ->
  chat_handler client {| body_history := h; body_message := m; req_file := None |} w
  = (Ok {| status := 400; json := ErrorBody "Message or file is required" |}, w).
Proof.
  intros Hm. rewrite chat_handler_parsed. unfold handler_steps. simpl. rewrite Hm. reflexivity.
Qed.

Lemma is_Some_file (f : staged_file) : bool_decide (is_Some (Some f)) = true.
Proof. apply bool_decide_eq_true_2. eauto. Qed.

(** With a staged file the [try] block either throws, leaving the calls
    it made and the disk as it was, or answers 200 after the cleanup. *)
Lemma handler_try_with_file (h m : jsval) (f : staged_file) (w : world) :
  let req := {| body_history := h; body_message := m; req_file := Some f |} in
  (exists e w', handler_steps client req w = (Throw e, w') /\ files w' = files w)
  \/ (exists reply w', handler_steps client req w
                       = (Ok {| status := 200; json := MessageBody reply |}, w')
                       /\ files w' !! path f = None).
Proof.
  cbv [handler_steps bind lift ret Model.startChat Model.sendMessage fileToBase64
       Fs.readFileSync body_history body_message req_file].
  rewrite is_Some_file, andb_false_r. cbv beta iota zeta.
  destruct (normalize h) as [ch|e]; [|left; eauto].
  cbv beta iota.
  match goal with |- context [start_outcome client ?c] =>
    destruct (start_outcome client c) as [[]|e] end; [|left; eauto].
  cbn [files calls].
  destruct (files w !! path f) as [b|] eqn:Hf; [|left; eauto].
  cbv beta iota.
  match goal with |- context [send_outcome client ?c ?p] =>
    destruct (send_outcome client c p) as [reply|e] end; [|left; eauto].
  cbn [files calls].
  match goal with |- context [cleanup (Some f) ?w0] =>
    destruct (cleanup_removes f w0) as (w' & Hc & Hgone & _) end.
  rewrite Hc. right. exists reply, w'. split; [reflexivity | exact Hgone].
Qed.

End Handler.

(** C2.  For every request that carries an attachment, whatever the
    history, the message, the model client and the state of the disk, the
    handler answers (200 on the success path, 500 on every failure path)
    and the staged file is absent from the disk when it does: the [try]
    block removes it after the reply of the model, the [catch] block
    removes it after any throw. *)
Theorem staged_file_removed (client : model_client) (h m : jsval)
    (f : staged_file) (w : world) :
  let req := {| body_history := h; body_message := m; req_file := Some f |} in
  exists r w',
    chat_handler client req w = (Ok r, w')
    /\ (status r = 200 \/ status r = 500)
    /\ files w' !! path f = None.
Proof.
  cbn zeta. rewrite chat_handler_parsed.
  destruct (handler_try_with_file client h m f w) as [(e & w1 & Ht & _) | (reply & w1 & Ht & Hgone)];
    rewrite Ht.
  - cbn [req_file]. unfold bind.
    destruct (cleanup_removes f w1) as (w' & Hc & Hgone & _). rewrite Hc.
    eexists _, w'. split; [reflexivity|]. split; [right; reflexivity | exact Hgone].
  - eexists _, w1. split; [reflexivity|]. split; [left; reflexivity | exact Hgone].
Qed.

Lemma destructure_defined (body : jsval) :
  body <> JUndefined -> body <> JNull ->
  destructure body = Ok (field body "history", field body "message").
Proof. destruct body; try congruence; reflexivity. Qed.




(** C9.  A request whose message is present but is the empty string, and
    which carries no attachment, is answered 400 exactly as if the message
    were absent. *)
Theorem empty_message_rejected (client : model_client) (e : env) (h : jsval) (w : world) :
  let http := {| form_history := h; form_message := JStr ""; form_file := None |} in
  let '(o, w') := post_api_chat client e http w in
  o = Responded {| status := 400; json := ErrorBody "Message or file is required" |}
  /\ calls w' = calls w
  /\ files w' = files w.
Proof.
  cbn zeta. unfold post_api_chat. cbn [form_file form_history form_message upload_single ret].
  rewrite handler_missing_input by reflexivity. auto.
Qed.

(** C5.  For a request with an attachment that reaches the model (the
    history normalises, the chat starts, the staged file is readable), the
    parts sent are the inline part (base64 of the file, MIME type by
    extension) first, then one text part: the message when there is one,
    otherwise the prompt "Please analyze this file and provide
    insights.". *)
Theorem parts_with_attachment (client : model_client) (h m : jsval)
    (f : staged_file) (w : world) (ch : list content) (b : string) :
  let req := {| body_history := h; body_message := m; req_file := Some f |} in
  let cfg := {| cfg_history := if (0 <? List.length ch)%nat then Some ch else None |} in
  normalize h = Ok ch ->
  start_outcome client cfg = Ok tt ->
  files w !! path f = Some b ->
  calls (chat_handler client req w).2
  = (calls w ++
     [StartChat cfg;
      SendMessage cfg
        [InlineData (base64 b) (getMimeType (path f));
         TextPart (if Js.truthy m then m
                   else JStr "Please analyze this file and provide insights.")]])%list.
Proof.
  cbn zeta. intros Hn Hs Hf. rewrite chat_handler_parsed.
  change "Please analyze this file and provide insights." with default_prompt.
  cbv [handler_steps bind lift ret Model.startChat Model.sendMessage fileToBase64
       Fs.readFileSync body_history body_message req_file].
  rewrite is_Some_file, andb_false_r. cbv beta iota zeta.
  rewrite Hn. cbv beta iota. rewrite Hs. cbn [files calls]. rewrite Hf.
  cbv beta iota.
  assert (Hparts : ([InlineData (base64 b) (getMimeType (path f))] ++
                    (if Js.truthy m then [TextPart m] else [TextPart (JStr default_prompt)]))%list
                   = [InlineData (base64 b) (getMimeType (path f));
                      TextPart (if Js.truthy m then m else JStr default_prompt)])
    by (destruct (Js.truthy m); reflexivity).
  rewrite Hparts.
  match goal with |- context [send_outcome client ?c ?p] =>
    destruct (send_outcome client c p) as [reply|e] end; cbn [files calls].
  - match goal with |- context [cleanup (Some f) ?w0] =>
      destruct (cleanup_removes f w0) as (w' & Hc & _ & Hcalls) end.
    rewrite Hc. cbn [snd]. rewrite Hcalls. cbn [calls].
    rewrite <- app_assoc. reflexivity.
  - match goal with |- context [cleanup (Some f) ?w0] =>
      destruct (cleanup_removes f w0) as (w' & Hc & _ & Hcalls) end.
    rewrite Hc. cbn [snd]. rewrite Hcalls. cbn [calls].
    rewrite <- app_assoc. reflexivity.
Qed.

Lemma parts_with_attachment_witness :
  calls (chat_handler failing_client
           {| body_history := JArr [plain_turn "user" "hi"];
              body_message := JUndefined;
              req_file := Some staged_pdf |} staged_world).2
  = [StartChat {| cfg_history := Some [entry "user" "hi"] |};
     SendMessage {| cfg_history := Some [entry "user" "hi"] |}
       [InlineData "TWFu" "application/pdf";
        TextPart (JStr "Please analyze this file and provide insights.")]].
Proof.
  exact (parts_with_attachment failing_client (JArr [plain_turn "user" "hi"]) JUndefined
           staged_pdf staged_world [entry "user" "hi"] "Man" eq_refl eq_refl eq_refl).
Defined.

(** ** Strings *)

Lemma append_empty (s : string) : EmptyString +:+ s = s.
Proof. reflexivity. Qed.

Lemma append_String (a : ascii) (r s : string) : String a r +:+ s = String a (r +:+ s).
Proof. reflexivity. Qed.

(** ** Extensions *)




Lemma extension_table (ext : string) :
  (if String.eqb ext "pdf" then "application/pdf"
   else if includes ["mp3"; "wav"; "m4a"; "ogg"] ext
        then "audio/" +:+ (if String.eqb ext "m4a" then "mp4" else ext)
   else "application/octet-stream")
  = mime_of_ext ext.
Proof.
  unfold mime_of_ext, includes. cbn [existsb].
  destruct (String.eqb_spec ext "pdf") as [->|_]; [reflexivity|].
  destruct (String.eqb_spec ext "mp3") as [->|_]; [reflexivity|].
  destruct (String.eqb_spec ext "wav") as [->|_]; [reflexivity|].
  destruct (String.eqb_spec ext "m4a") as [->|_]; [reflexivity|].
  destruct (String.eqb_spec ext "ogg") as [->|_]; reflexivity.
Qed.





(** ** Trimming *)

Lemma trimStart_bracket (t rest : string) :
  exists c r, trimStart (t +:+ String " " (String "[" rest)) = String c r
              /\ is_space c = false.
Proof.
  induction t as [|a t' (c & r & IH & Hc)].
  - exists "["%char, rest. split; reflexivity.
  - rewrite append_String. cbn [trimStart].
    destruct (is_space a) eqn:Ha.
    + exists c, r. split; assumption.
    + eexists _, _. split; [reflexivity | exact Ha].
Qed.

Lemma trimEnd_keeps_head (c : ascii) (r : string) :
  is_space c = false -> trimEnd (String c r) <> EmptyString.
Proof.
  intros Hc. cbn [trimEnd]. destruct (trimEnd r); [rewrite Hc|]; discriminate.
Qed.

Lemma trim_label_nonempty (t n : string) :
  trim (t +:+ " [File: " +:+ n +:+ "]") <> EmptyString.
Proof.
  unfold trim.
  change (" [File: " +:+ n +:+ "]") with (String " " (String "[" ("File: " +:+ n +:+ "]"))).
  destruct (trimStart_bracket t ("File: " +:+ n +:+ "]")) as (c & r & -> & Hc).
  apply trimEnd_keeps_head, Hc.
Qed.

Lemma length_pos_nonempty (t : string) :
  (0 <? String.length t)%nat = negb (String.eqb t "").
Proof. destruct t; reflexivity. Qed.

(** ** The callback of [map] against the derived text *)

Lemma get_field (msg : jsval) (k k' : string) (v : jsval) :
  Js.get msg k' = Ok v -> Js.get msg k = Ok (field msg k).
Proof. destruct msg; cbn; intros H; try discriminate H; reflexivity. Qed.

Lemma get_truthy (v : jsval) (k : string) :
  Js.truthy v = true -> Js.get v k = Ok (field v k).
Proof. destruct v; cbn; intros H; try discriminate H; reflexivity. Qed.

Lemma map_turn_spec (msg : jsval) :
  map_turn msg
  = (_ <- Js.get msg "role" ;;
     match turn_role msg with
     | Some r => t <- derived_text msg ;; Ok (Some (entry r t))
     | None => Ok None
     end).
Proof.
  unfold map_turn, turn_role, derived_text.
  destruct (Js.get msg "role") as [v|e] eqn:Hrole; [|reflexivity].
  cbn [rbind].
  rewrite (get_field msg "file" _ _ Hrole), (get_field msg "text" _ _ Hrole),
          (get_field msg "message" _ _ Hrole).
  cbn [rbind].
  assert (Hv : field msg "role" = v) by (unfold field; rewrite Hrole; reflexivity).
  rewrite Hv.
  destruct v as [| |b|r|r|l|p]; try reflexivity.
  cbn [strict_eq_str].
  destruct (String.eqb_spec r "user") as [->|Hu].
  - cbn [orb andb]. unfold has_attachment, attachment_text, plain_text.
    destruct (Js.truthy (field msg "file")) eqn:Hfile.
    + rewrite (get_truthy _ "name" Hfile).
      destruct (Js.to_string (Js.or (field msg "text") (JStr ""))); [|reflexivity].
      cbn [rbind].
      destruct (Js.to_string (Js.or (field (field msg "file") "name") (JStr "uploaded file")));
        reflexivity.
    + destruct (Js.to_string _); reflexivity.
  - cbn [orb andb]. unfold plain_text.
    destruct (String.eqb_spec r "model") as [->|Hm]; [|reflexivity].
    destruct (Js.to_string _); reflexivity.
Qed.

(** What the filter does with the result of the callback. *)
Lemma keep_turn_spec (msg : jsval) (o : option content) :
  map_turn msg = Ok o ->
  exists b, keep_turn o = Ok b /\ kept_entry msg = (if b then o else None).
Proof.
  rewrite map_turn_spec. unfold kept_entry.
  destruct (Js.get msg "role") as [v|e]; [|discriminate].
  cbn [rbind]. destruct (turn_role msg) as [r|].
  - destruct (derived_text msg) as [t|e]; [|discriminate].
    cbn [rbind]. intros [= <-]. cbn [keep_turn entry parts text].
    exists (0 <? String.length t)%nat. split; [reflexivity|].
    rewrite length_pos_nonempty. destruct (String.eqb t ""); reflexivity.
  - intros [= <-]. exists false. split; reflexivity.
Qed.

Lemma map_filter_kept (h : list jsval) :
  Forall turn_converts h ->
  exists mapped kept,
    map_r map_turn h = Ok mapped
    /\ filter_r keep_turn mapped = Ok kept
    /\ entries kept = omap kept_entry h.
Proof.
  induction 1 as [|m h Hm _ (mapped & kept & Hmap & Hfilter & Hkept)].
  - exists [], []. repeat split.
  - unfold turn_converts in Hm.
    destruct (map_turn m) as [o|e] eqn:Ho; [|discriminate Hm].
    destruct (keep_turn_spec m o Ho) as (b & Hb & Hk).
    exists (o :: mapped), (if b then o :: kept else kept).
    cbn [map_r filter_r rbind]. rewrite Ho. cbn [rbind]. rewrite Hmap. cbn [rbind].
    rewrite Hb. cbn [rbind]. rewrite Hfilter. cbn [rbind].
    repeat split. cbn [omap list_omap]. rewrite Hk, <- Hkept.
    destruct b; [destruct o|]; reflexivity.
Qed.

Lemma normalize_kept (h : list jsval) :
  Forall turn_converts h ->
  normalize (JArr h) = Ok (omap kept_entry h).
Proof.
  intros Hh. unfold normalize. cbn [Js.truthy Js.isArray Js.elements andb].
  destruct h as [|m h']; [reflexivity|].
  cbn [List.length Nat.ltb Nat.leb].
  destruct (map_filter_kept _ Hh) as (mapped & kept & -> & Hf & Hk).
  cbn [rbind]. rewrite Hf. cbn [rbind]. rewrite Hk. reflexivity.
Qed.

(** ** History normalisation *)

Lemma map_r_throws (l : list jsval) (m : jsval) :
  m ∈ l -> ~ turn_converts m -> exists e, map_r map_turn l = Throw e.
Proof.
  induction l as [|x l IH]; intros Hin Hm; [inversion Hin|].
  cbn [map_r]. destruct (map_turn x) as [o|e] eqn:Hx; [|cbn [rbind]; eauto].
  cbn [rbind]. apply elem_of_cons in Hin as [-> | Hin].
  - exfalso. apply Hm. unfold turn_converts. rewrite Hx. reflexivity.
  - destruct (IH Hin Hm) as (e & ->). cbn [rbind]. eauto.
Qed.

(** C7, as amended.  On a history list on whose turns the callback of
    [map] never throws, normalisation returns, in the order of the list,
    the entries of the turns that are kept: a turn whose role is neither
    'user' nor 'model' leaves nothing, a turn whose derived text is empty
    leaves nothing, every other turn leaves its entry.  If the callback
    throws on some element, normalisation throws and returns no history. *)
Theorem normalize_drops_and_keeps_order (h : list jsval) :
  (Forall turn_converts h -> normalize (JArr h) = Ok (omap kept_entry h))
  /\ (forall m, m ∈ h -> ~ turn_converts m -> exists e, normalize (JArr h) = Throw e).
Proof.
  split; [apply normalize_kept|].
  intros m Hin Hm. unfold normalize. cbn [Js.truthy Js.isArray Js.elements andb].
  destruct h as [|x h']; [inversion Hin|]. cbn [List.length Nat.ltb Nat.leb].
  destruct (map_r_throws _ m Hin Hm) as (e & ->). cbn [rbind]. eauto.
Qed.

Lemma normalize_drops_and_keeps_order_witness :
  normalize (JArr mixed_history) = Ok [entry "user" "hi"; entry "model" "hello"].
Proof.
  refine (proj1 (normalize_drops_and_keeps_order mixed_history) _).
  repeat constructor.
Defined.

(** C7 as stated fails.  A [null] between two good turns is not dropped:
    the callback throws on it and the whole normalisation throws, where
    dropping it would have left the two entries. *)
Lemma normalize_null_counterexample :
  let h := [plain_turn "user" "hi"; JNull; plain_turn "model" "hello"] in
  omap kept_entry h = [entry "user" "hi"; entry "model" "hello"]
  /\ normalize (JArr h)
     = Throw (TypeError "Cannot read properties of null (reading 'role')")
  /\ normalize (JArr h) <> Ok (omap kept_entry h).
Proof. repeat split. discriminate. Qed.

Lemma user_turn_is_user (msg : jsval) :
  strict_eq_str (field msg "role") "user" = true ->
  exists v, Js.get msg "role" = Ok v /\ turn_role msg = Some "user".
Proof.
  unfold field, turn_role. destruct (Js.get msg "role") as [v|e]; [|discriminate].
  destruct v; try discriminate. cbn [strict_eq_str].
  intros H. apply String.eqb_eq in H as ->. eauto.
Qed.

Lemma attachment_turn_entry (msg : jsval) (t : string) :
  strict_eq_str (field msg "role") "user" = true ->
  has_attachment msg = true ->
  attachment_text msg = Ok t ->
  map_turn msg = Ok (Some (entry "user" t))
  /\ normalize (JArr [msg]) = Ok [entry "user" t]
  /\ t <> "".
Proof.
  intros Hu Hf Ht.
  assert (Hd : derived_text msg = Ok t) by (unfold derived_text; rewrite Hu, Hf; exact Ht).
  destruct (user_turn_is_user msg Hu) as (v & Hget & Hrole).
  assert (Hmap : map_turn msg = Ok (Some (entry "user" t))).
  { rewrite map_turn_spec, Hget, Hrole, Hd. reflexivity. }
  assert (Hne : t <> "").
  { unfold attachment_text in Ht.
    destruct (Js.to_string (Js.or (field msg "text") (JStr ""))) as [a|]; [|discriminate].
    destruct (Js.to_string (Js.or (field (field msg "file") "name") (JStr "uploaded file")))
      as [b|]; [|discriminate].
    cbn [rbind] in Ht. injection Ht as <-. apply trim_label_nonempty. }
  split; [exact Hmap|]. split; [|exact Hne].
  rewrite normalize_kept.
  - cbn [omap list_omap]. unfold kept_entry. rewrite Hrole, Hd.
    apply String.eqb_neq in Hne. rewrite Hne. reflexivity.
  - constructor; [|constructor]. unfold turn_converts. rewrite Hmap. reflexivity.
Qed.

Lemma is_space_white (a : ascii) : is_space a = white_space a.
Proof. destruct a as [[] [] [] [] [] [] [] []]; reflexivity. Qed.

Lemma trimStart_spec (s : string) :
  exists l, s = l +:+ trimStart s /\ all_space l = true /\ starts_clean (trimStart s).
Proof.
  induction s as [|a r (l & Hl & Hs & Hc)].
  - exists EmptyString. repeat split.
  - cbn [trimStart]. destruct (is_space a) eqn:Ha.
    + exists (String a l). rewrite append_String, <- Hl.
      cbn [all_space]. rewrite <- is_space_white, Ha, Hs. repeat split. exact Hc.
    + exists EmptyString. rewrite append_empty. cbn [all_space starts_clean].
      rewrite <- is_space_white. repeat split. exact Ha.
Qed.

Lemma trimEnd_spec (u : string) :
  exists r, u = trimEnd u +:+ r /\ all_space r = true /\ ends_clean (trimEnd u).
Proof.
  induction u as [|a u' (r & Hr & Hs & Hc)].
  - exists EmptyString. repeat split.
  - cbn [trimEnd]. destruct (trimEnd u') as [|b t] eqn:Ht.
    + rewrite append_empty in Hr. subst r. destruct (is_space a) eqn:Ha.
      * exists (String a u'). rewrite append_empty. cbn [all_space].
        rewrite <- is_space_white, Ha, Hs. repeat split.
      * exists u'. cbn [ends_clean]. rewrite <- is_space_white. repeat split; assumption.
    + exists r. rewrite append_String, <- Hr. repeat split; assumption.
Qed.

Lemma trimEnd_starts_clean (u : string) : starts_clean u -> starts_clean (trimEnd u).
Proof.
  destruct u as [|a u']; [trivial|]. cbn [starts_clean trimEnd]. intros Ha.
  rewrite is_space_white, Ha. destruct (trimEnd u'); exact Ha.
Qed.

Lemma trim_spec (s : string) : trimmed_of s (trim s).
Proof.
  unfold trim.
  destruct (trimStart_spec s) as (l & Hl & Hls & Hstart).
  destruct (trimEnd_spec (trimStart s)) as (r & Hr & Hrs & Hend).
  exists l, r. rewrite <- Hr. repeat split; try assumption.
  apply trimEnd_starts_clean, Hstart.
Qed.

Lemma shown_or (v : jsval) (fallback s : string) :
  shown v fallback s -> Js.to_string (Js.or v (JStr fallback)) = Ok s.
Proof.
  unfold shown, Js.or. destruct (Js.truthy v); [trivial|]. intros ->. reflexivity.
Qed.

(** C3.  For a user turn with an attachment, let [original] be the text of
    the turn (the empty string when [text] is falsy) and [label] the name
    of the attachment ('uploaded file' when [name] is falsy).  The
    normaliser gives the turn the text "<original> [File: <label>]"
    without the white space at its two ends.  Only the name of the
    attachment enters the entry, whatever else the [file] object holds.
    In particular the turn with text "summarize" and attachment
    "report.pdf" gets "summarize [File: report.pdf]". *)
Theorem user_attachment_text :
  (forall (msg : jsval) (original label : string),
      field msg "role" = JStr "user" ->
      has_attachment msg = true ->
      shown (field msg "text") "" original ->
      shown (field (field msg "file") "name") "uploaded file" label ->
      exists t,
        trimmed_of (original +:+ " [File: " +:+ label +:+ "]") t
        /\ map_turn msg = Ok (Some (entry "user" t))
        /\ normalize (JArr [msg]) = Ok [entry "user" t])
  /\ normalize (JArr [report_turn]) = Ok [entry "user" "summarize [File: report.pdf]"].
Proof.
  split; [|reflexivity].
  intros msg original label Hrole Hf Ho Hl.
  exists (trim (original +:+ " [File: " +:+ label +:+ "]")).
  split; [apply trim_spec|].
  assert (Hu : strict_eq_str (field msg "role") "user" = true) by (rewrite Hrole; reflexivity).
  destruct (attachment_turn_entry msg (trim (original +:+ " [File: " +:+ label +:+ "]")) Hu Hf)
    as (Hmap & Hnorm & _).
  - unfold attachment_text. rewrite (shown_or _ _ _ Ho), (shown_or _ _ _ Hl). reflexivity.
  - split; assumption.
Qed.

Lemma user_attachment_text_witness :
  normalize (JArr [padded_turn]) = Ok [entry "user" "hello [File: uploaded file]"]
  /\ exists t,
       trimmed_of ("  hello" +:+ " [File: " +:+ "uploaded file" +:+ "]") t
       /\ map_turn padded_turn = Ok (Some (entry "user" t))
       /\ normalize (JArr [padded_turn]) = Ok [entry "user" t].
Proof.
  split; [reflexivity|].
  exact (proj1 user_attachment_text padded_turn "  hello" "uploaded file"
           eq_refl eq_refl eq_refl eq_refl).
Defined.

(** C10.  A user turn with an attachment never has an empty normalised
    text: whenever the callback returns on it, the text is non-empty and
    the turn passes the filter; and when both its text and the name of the
    attachment are empty or absent, the text is "[File: uploaded file]". *)
Theorem attachment_turn_text_nonempty (msg : jsval) :
  strict_eq_str (field msg "role") "user" = true ->
  has_attachment msg = true ->
  (turn_converts msg ->
   exists t, t <> ""
             /\ map_turn msg = Ok (Some (entry "user" t))
             /\ keep_turn (Some (entry "user" t)) = Ok true
             /\ normalize (JArr [msg]) = Ok [entry "user" t])
  /\ (Js.truthy (field msg "text") = false ->
      Js.truthy (field (field msg "file") "name") = false ->
      normalize (JArr [msg]) = Ok [entry "user" "[File: uploaded file]"]).
Proof.
  intros Hu Hf. split.
  - intros Hc. unfold turn_converts in Hc.
    destruct (user_turn_is_user msg Hu) as (v & Hget & Hrole).
    rewrite map_turn_spec, Hget, Hrole in Hc. cbn [rbind] in Hc.
    unfold derived_text in Hc. rewrite Hu, Hf in Hc. cbn [andb] in Hc.
    destruct (attachment_text msg) as [t|e] eqn:Ht; [|discriminate Hc].
    destruct (attachment_turn_entry msg t Hu Hf Ht) as (Hmap & Hnorm & Hne).
    exists t. repeat split; try assumption.
    cbn [keep_turn entry parts text]. rewrite length_pos_nonempty.
    apply String.eqb_neq in Hne. rewrite Hne. reflexivity.
  - intros Htext Hname.
    apply (attachment_turn_entry msg "[File: uploaded file]" Hu Hf).
    unfold attachment_text, Js.or. rewrite Htext, Hname. reflexivity.
Qed.

Lemma attachment_turn_text_nonempty_witness :
  normalize (JArr [nameless_turn]) = Ok [entry "user" "[File: uploaded file]"]
  /\ exists t, t <> "" /\ map_turn nameless_turn = Ok (Some (entry "user" t))
               /\ keep_turn (Some (entry "user" t)) = Ok true
               /\ normalize (JArr [nameless_turn]) = Ok [entry "user" t].
Proof.
  destruct (attachment_turn_text_nonempty nameless_turn eq_refl eq_refl) as [Hany Hempty].
  split.
  - exact (Hempty eq_refl eq_refl).
  - exact (Hany eq_refl).
Defined.

(** ** Plain histories *)

Lemma plain_turn_text (r t : string) :
  t <> "" -> derived_text (plain_turn r t) = Ok t.
Proof.
  intros Ht. apply String.eqb_neq in Ht.
  unfold derived_text, has_attachment, plain_text.
  change (field (plain_turn r t) "file") with JUndefined.
  change (field (plain_turn r t) "text") with (JStr t).
  change (field (plain_turn r t) "message") with JUndefined.
  cbn [Js.truthy]. rewrite andb_false_r.
  unfold Js.or. cbn [Js.truthy]. rewrite Ht. cbn [negb Js.truthy]. rewrite Ht.
  reflexivity.
Qed.

Lemma plain_turn_kept (rt : string * string) :
  plain_ok rt ->
  turn_converts (plain_turn rt.1 rt.2)
  /\ kept_entry (plain_turn rt.1 rt.2) = Some (entry rt.1 rt.2).
Proof.
  destruct rt as [r t]. unfold plain_ok. cbn [fst snd]. intros [Hr Ht].
  pose proof (plain_turn_text r t Ht) as Hd.
  apply String.eqb_neq in Ht.
  assert (Hrole : turn_role (plain_turn r t) = Some r)
    by (destruct Hr as [-> | ->]; reflexivity).
  split.
  - unfold turn_converts. rewrite map_turn_spec, Hrole, Hd. reflexivity.
  - unfold kept_entry. rewrite Hrole, Hd, Ht. reflexivity.
Qed.

Lemma normalize_plain (l : list (string * string)) :
  Forall plain_ok l ->
  normalize (JArr (map (fun rt => plain_turn rt.1 rt.2) l))
  = Ok (map (fun rt => entry rt.1 rt.2) l).
Proof.
  intros Hl. rewrite normalize_kept.
  - f_equal. induction Hl as [|rt l Hrt _ IH]; [reflexivity|].
    cbn [map omap list_omap]. rewrite (proj2 (plain_turn_kept rt Hrt)).
    f_equal. exact IH.
  - induction Hl as [|rt l Hrt _ IH]; constructor;
      [exact (proj1 (plain_turn_kept rt Hrt)) | exact IH].
Qed.

Lemma content_as_turn_entry (l : list (string * string)) :
  map content_as_turn (map (fun rt => entry rt.1 rt.2) l)
  = map (fun rt => plain_turn rt.1 rt.2) l.
Proof.
  rewrite map_map. apply map_ext. intros [r t].
  unfold content_as_turn, entry. cbn [role parts map text String.concat fst snd].
  reflexivity.
Qed.

(** C8, as amended.  A plain sequence of { role, text } turns with roles
    in {user, model} and non-empty texts normalises to the entries with
    the same roles and texts in the same order; reading these entries back
    as { role, text } turns and normalising again gives the same result. *)
Theorem normalize_plain_idempotent (l : list (string * string)) :
  Forall plain_ok l ->
  let h := JArr (map (fun rt => plain_turn rt.1 rt.2) l) in
  exists once,
    normalize h = Ok once
    /\ once = map (fun rt => entry rt.1 rt.2) l
    /\ normalize (JArr (map content_as_turn once)) = Ok once.
Proof.
  intros Hl h. exists (map (fun rt => entry rt.1 rt.2) l).
  split; [apply normalize_plain, Hl|]. split; [reflexivity|].
  rewrite content_as_turn_entry. apply normalize_plain, Hl.
Qed.

Lemma normalize_plain_idempotent_witness :
  exists once,
    normalize (JArr [plain_turn "user" "hi"; plain_turn "model" "hello"]) = Ok once
    /\ once = [entry "user" "hi"; entry "model" "hello"]
    /\ normalize (JArr (map content_as_turn once)) = Ok once.
Proof.
  refine (normalize_plain_idempotent [("user", "hi"); ("model", "hello")] _).
  repeat constructor; discriminate.
Defined.

(** C8 as stated fails.  The entries that normalisation builds carry their
    text under [parts]; normalising the array it returned finds no [text]
    and no [message] in them and drops every one. *)
Lemma normalize_twice_counterexample :
  Forall plain_ok [("user", "hi")]
  /\ normalize (JArr [plain_turn "user" "hi"]) = Ok [entry "user" "hi"]
  /\ normalize (JArr (map content_js [entry "user" "hi"])) = Ok []
  /\ normalize (JArr (map content_js [entry "user" "hi"]))
     <> normalize (JArr [plain_turn "user" "hi"]).
Proof.
  split; [repeat constructor; discriminate|].
  split; [reflexivity|]. split; [reflexivity|]. discriminate.
Qed.

(** ** The file filter *)

Lemma fileFilter_spec (f : upload) :
  fileFilter f
  = if startsWith (mimetype f) "audio/" || startsWith (mimetype f) "application/pdf"
    then Ok true else Throw unsupported.
Proof.
  unfold fileFilter, some, allowedTypes. cbn [existsb]. rewrite orb_false_r. reflexivity.
Qed.

(** C4, as amended.  The filter accepts an upload exactly when its declared
    MIME type starts with 'audio/' or starts with 'application/pdf'.  Any
    other type ends the request with the unsupported-file-type error
    before the handler runs, the disk and the model client untouched. *)
Theorem staging_accepts_by_prefix (f : upload) :
  (fileFilter f = Ok true
   <-> startsWith (mimetype f) "audio/" = true
       \/ startsWith (mimetype f) "application/pdf" = true)
  /\ (startsWith (mimetype f) "audio/" = false ->
      startsWith (mimetype f) "application/pdf" = false ->
      fieldname f = "file" ->
      originalname f <> "" ->
      forall client e h m w,
        post_api_chat client e
          {| form_history := h; form_message := m; form_file := Some f |} w
        = (Failed unsupported, w)).
Proof.
  split.
  - rewrite fileFilter_spec.
    destruct (startsWith (mimetype f) "audio/"), (startsWith (mimetype f) "application/pdf");
      cbn [orb]; split; intros H; auto; try discriminate H; destruct H; discriminate.
  - intros Ha Hp Hfield Hname client e h m w.
    unfold post_api_chat, upload_single. cbn [form_file].
    apply String.eqb_neq in Hname. rewrite Hname, Hfield. cbn [String.eqb Ascii.eqb Bool.eqb negb]. 
    unfold bind, lift, throw. rewrite fileFilter_spec, Ha, Hp. reflexivity.
Qed.

Lemma staging_accepts_by_prefix_witness :
  post_api_chat echo_client test_env
    {| form_history := JUndefined; form_message := JStr "read this";
       form_file := Some text_upload |} empty_world
  = (Failed unsupported, empty_world).
Proof.
  refine (proj2 (staging_accepts_by_prefix text_upload) eq_refl eq_refl eq_refl _
            echo_client test_env JUndefined (JStr "read this") empty_world).
  discriminate.
Defined.

(** C4 as stated fails.  The declared type application/pdfx neither starts
    with 'audio/' nor equals 'application/pdf', and the filter accepts it. *)
Lemma fileFilter_equals_pdf_counterexample :
  ~ (forall f : upload,
       fileFilter f = Ok true
       <-> startsWith (mimetype f) "audio/" = true \/ mimetype f = "application/pdf").
Proof.
  intros H. destruct (proj1 (H pdfx_upload) eq_refl) as [Ha | Hp]; discriminate.
Qed.

(** * Further properties *)

(** ** The handler in closed form *)

Lemma world_eta (w : world) : {| files := files w; calls := calls w |} = w.
Proof. destruct w; reflexivity. Qed.

Lemma cleanup_spec (file : option staged_file) (w : world) :
  cleanup file w = (Ok tt, {| files := cleaned file (files w); calls := calls w |}).
Proof.
  destruct file as [f|]; cbn [cleanup cleaned]; [|unfold ret; rewrite world_eta; reflexivity].
  unfold bind, Fs.existsSync, Fs.unlinkSync, ret.
  destruct (files w !! path f) as [b|] eqn:Hf.
  - rewrite bool_decide_eq_true_2 by eauto. rewrite Hf. reflexivity.
  - rewrite bool_decide_eq_false_2 by (intros [? ?]; congruence).
    rewrite delete_id by exact Hf. rewrite world_eta. reflexivity.
Qed.

Lemma handler_spec (client : model_client) (req : request) (w : world) :
  chat_handler client req w
  = (Ok (handler_result client req (files w)).1,
     {| files := cleaned (req_file req) (files w);
        calls := (calls w ++ (handler_result client req (files w)).2)%list |}).
Proof.
  destruct req as [h m file]. rewrite chat_handler_parsed. unfold handler_result.
  cbv [handler_steps bind lift ret Model.startChat Model.sendMessage fileToBase64
       Fs.readFileSync body_history body_message req_file text_parts config_of
       enoent_open].
  destruct (negb (Js.truthy m) && negb (bool_decide (is_Some file))) eqn:Hguard.
  - cbn [fst snd]. rewrite app_nil_r.
    assert (file = None) as ->.
    { destruct file; [|reflexivity]. rewrite is_Some_file, andb_false_r in Hguard.
      discriminate. }
    cbn [cleaned]. rewrite world_eta. reflexivity.
  - cbv beta iota zeta.
    destruct (normalize h) as [ch|e]; cbv beta iota.
    { match goal with |- context [start_outcome client ?c] =>
        destruct (start_outcome client c) as [[]|e] end; cbv beta iota.
      - destruct file as [f|]; cbv beta iota; cbn [files calls].
        + destruct (files w !! path f) as [b|]; cbv beta iota.
          * match goal with |- context [send_outcome client ?c ?p] =>
              destruct (send_outcome client c p) as [reply|e] end;
              cbv beta iota; rewrite cleanup_spec; cbn [files calls fst snd];
              rewrite <- app_assoc; reflexivity.
          * rewrite cleanup_spec. reflexivity.
        + match goal with |- context [send_outcome client ?c ?p] =>
            destruct (send_outcome client c p) as [reply|e] end;
            cbv beta iota; rewrite cleanup_spec; cbn [files calls fst snd];
            rewrite <- app_assoc; reflexivity.
      - rewrite cleanup_spec. reflexivity. }
    rewrite cleanup_spec. cbn [files calls fst snd]. rewrite app_nil_r. reflexivity.
Qed.

(** ** What the handler always does *)

Lemma handler_result_status (client : model_client) (req : request)
    (fs : gmap string string) :
  let r := (handler_result client req fs).1 in
  (status r = 200 \/ status r = 400 \/ status r = 500)
  /\ (status r = 400 <-> Js.truthy (body_message req) = false /\ req_file req = None).
Proof.
  cbv zeta. unfold handler_result.
  destruct (negb (Js.truthy (body_message req))
            && negb (bool_decide (is_Some (req_file req)))) eqn:Hguard.
  - cbn [fst status]. split; [auto|]. split; [intros _|reflexivity].
    apply andb_true_iff in Hguard as [Hm Hf].
    apply negb_true_iff in Hm. apply negb_true_iff in Hf.
    split; [exact Hm|]. destruct (req_file req); [|reflexivity].
    rewrite is_Some_file in Hf. discriminate.
  - assert (Hno : ~ (Js.truthy (body_message req) = false /\ req_file req = None)).
    { intros [Hm Hf]. rewrite Hm, Hf in Hguard. cbn in Hguard. discriminate. }
    assert (Hfail : forall e, status (failure e) = 500) by reflexivity.
    destruct (normalize (body_history req)) as [ch|e]; cbv zeta.
    2:{ cbn [fst]. rewrite Hfail. split; [auto|]. split; [discriminate|tauto]. }
    destruct (start_outcome client (config_of ch)) as [[]|e].
    2:{ cbn [fst]. rewrite Hfail. split; [auto|]. split; [discriminate|tauto]. }
    match goal with |- context [match ?r with Ok _ => _ | Throw _ => _ end] =>
      destruct r as [fp|e] end.
    2:{ cbn [fst]. rewrite Hfail. split; [auto|]. split; [discriminate|tauto]. }
    destruct (send_outcome client _ _) as [reply|e]; cbn [fst status];
      try rewrite Hfail; (split; [auto|]); (split; [discriminate|tauto]).
Qed.

Lemma chat_handler_body (client : model_client) (req : express_req) (w : world) :
  chat_handler client req w
  = match destructure (req_body req) with
    | Ok (h, m) =>
        chat_handler client
          {| body_history := h; body_message := m; req_file := req_upload req |} w
    | Throw e =>
        (Ok (failure e),
         {| files := cleaned (req_upload req) (files w); calls := calls w |})
    end.
Proof.
  destruct (destructure (req_body req)) as [[h m]|e] eqn:Hd.
  - rewrite chat_handler_parsed. unfold chat_handler, handler_try, bind, lift.
    rewrite Hd. reflexivity.
  - unfold chat_handler, handler_try, bind, lift. rewrite Hd.
    unfold ret. rewrite cleanup_spec. reflexivity.
Qed.

(** X1.  The handler answers every request, with status 200, 400 or 500.
    The status is 400 exactly when [req.body] can be destructured (it is
    neither [undefined] nor [null]), the message is falsy and no file is
    attached; when [req.body] is [undefined] or [null] the status is 500. *)
Theorem handler_always_answers (client : model_client) (req : express_req) (w : world) :
  exists r w',
    chat_handler client req w = (Ok r, w')
    /\ (status r = 200 \/ status r = 400 \/ status r = 500)
    /\ (status r = 400 <->
        req_body req <> JUndefined /\ req_body req <> JNull
        /\ Js.truthy (field (req_body req) "message") = false
        /\ req_upload req = None)
    /\ (req_body req = JUndefined \/ req_body req = JNull -> status r = 500).
Proof.
  rewrite chat_handler_body.
  destruct (destructure (req_body req)) as [[h m]|e] eqn:Hd.
  - assert (Hdef : req_body req <> JUndefined /\ req_body req <> JNull).
    { destruct (req_body req); try discriminate Hd; split; discriminate. }
    destruct Hdef as [Hu Hn].
    rewrite (destructure_defined _ Hu Hn) in Hd. injection Hd as <- <-.
    rewrite handler_spec. eexists _, _. split; [reflexivity|].
    destruct (handler_result_status client
                {| body_history := field (req_body req) "history";
                   body_message := field (req_body req) "message";
                   req_file := req_upload req |} (files w)) as [Hrange Hiff].
    cbn [body_message req_file] in Hiff.
    split; [exact Hrange|]. split.
    + rewrite Hiff. tauto.
    + intros [H | H]; contradiction.
  - eexists _, _. split; [reflexivity|]. cbn [failure status].
    split; [auto|]. split; [|reflexivity].
    split; [discriminate|]. intros (Hu & Hn & _).
    rewrite (destructure_defined _ Hu Hn) in Hd. discriminate Hd.
Qed.

Lemma handler_always_answers_witness :
  exists r w',
    chat_handler echo_client {| req_body := JUndefined; req_upload := None |} empty_world
    = (Ok r, w')
    /\ status r = 500.
Proof.
  destruct (handler_always_answers echo_client
              {| req_body := JUndefined; req_upload := None |} empty_world)
    as (r & w' & Hrun & _ & _ & H500).
  exists r, w'. split; [exact Hrun|]. apply H500. left. reflexivity.
Defined.

(** X2.  The only change the handler makes to the disk is the removal of
    the staged file of the request: without a file the disk is unchanged,
    with one every other path keeps its content. *)
Theorem handler_disk_frame (client : model_client) (req : request) (w : world) :
  files (chat_handler client req w).2
  = match req_file req with
    | Some f => delete (path f) (files w)
    | None => files w
    end.
Proof. rewrite handler_spec. reflexivity. Qed.

(** X3.  The handler talks to the model client in a fixed order: it adds
    nothing, or one [startChat], or one [startChat] followed by one
    [sendMessage] on the same configuration.  The configuration carries
    the normalised history, and no [history] field at all when that
    history is empty. *)
Theorem handler_call_protocol (client : model_client) (req : request) (w : world) :
  exists new,
    calls (chat_handler client req w).2 = (calls w ++ new)%list
    /\ (new = []
        \/ exists ch cfg,
             normalize (body_history req) = Ok ch
             /\ cfg_history cfg = match ch with [] => None | _ :: _ => Some ch end
             /\ (new = [StartChat cfg]
                 \/ exists message_parts, new = [StartChat cfg; SendMessage cfg message_parts])).
Proof.
  rewrite handler_spec. cbn [snd calls]. eexists. split; [reflexivity|].
  unfold handler_result.
  destruct (negb (Js.truthy (body_message req))
            && negb (bool_decide (is_Some (req_file req)))); [left; reflexivity|].
  destruct (normalize (body_history req)) as [ch|e]; [|left; reflexivity].
  right. exists ch, (config_of ch). split; [reflexivity|].
  split; [destruct ch; reflexivity|]. cbv zeta.
  destruct (start_outcome client (config_of ch)) as [[]|e]; [|left; reflexivity].
  match goal with |- context [match ?r with Ok _ => _ | Throw _ => _ end] =>
    destruct r as [fp|e] end; [|left; reflexivity].
  destruct (send_outcome client _ _); right; eexists; reflexivity.
Qed.

(** X4.  When the history cannot be normalised the request fails before
    the model is involved: the answer is 500 with the message of the
    error, no call is made, and the staged file is still removed. *)
Theorem normalisation_failure_is_reported (client : model_client) (req : request)
    (w : world) (e : js_error) :
  normalize (body_history req) = Throw e ->
  Js.truthy (body_message req) = true \/ is_Some (req_file req) ->
  chat_handler client req w
  = (Ok {| status := 500;
           json := FailureBody "Failed to process chat message" (error_message e) |},
     {| files := match req_file req with
                 | Some f => delete (path f) (files w)
                 | None => files w
                 end;
        calls := calls w |}).
Proof.
  intros Hn Hguard. rewrite handler_spec. unfold handler_result. rewrite Hn.
  assert (negb (Js.truthy (body_message req))
          && negb (bool_decide (is_Some (req_file req))) = false) as ->.
  { destruct Hguard as [-> | Hf]; [reflexivity|].
    rewrite (bool_decide_eq_true_2 _ Hf). apply andb_false_r. }
  cbn [fst snd]. rewrite app_nil_r. reflexivity.
Qed.

Lemma normalisation_failure_is_reported_witness :
  chat_handler echo_client
    {| body_history := JArr [JNull]; body_message := JStr "hi";
       req_file := Some staged_pdf |} staged_world
  = (Ok {| status := 500;
           json := FailureBody "Failed to process chat message"
                     "Cannot read properties of null (reading 'role')" |},
     {| files := delete pdf_path (files staged_world); calls := [] |}).
Proof.
  refine (normalisation_failure_is_reported echo_client
            {| body_history := JArr [JNull]; body_message := JStr "hi";
               req_file := Some staged_pdf |} staged_world _ eq_refl _).
  left. reflexivity.
Defined.

(** X5.  A history that is not an array, such as the string a multipart
    form delivers, is ignored: whenever the request has a message, the
    chat is started without any history. *)
Theorem non_array_history_ignored (client : model_client) (req : request) (w : world) :
  Js.isArray (body_history req) = false ->
  Js.truthy (body_message req) = true ->
  normalize (body_history req) = Ok []
  /\ exists rest,
       calls (chat_handler client req w).2
       = (calls w ++ StartChat {| cfg_history := None |} :: rest)%list.
Proof.
  intros Harr Hm.
  assert (Hn : normalize (body_history req) = Ok []).
  { unfold normalize. rewrite Harr, andb_false_r. reflexivity. }
  split; [exact Hn|].
  rewrite handler_spec. cbn [snd calls]. unfold handler_result. rewrite Hn, Hm.
  cbn [negb andb]. cbv zeta.
  change (config_of []) with {| cfg_history := None |}.
  destruct (start_outcome client _) as [[]|e]; [|eexists; reflexivity].
  match goal with |- context [match ?r with Ok _ => _ | Throw _ => _ end] =>
    destruct r as [fp|e] end; [|eexists; reflexivity].
  destruct (send_outcome client _ _); eexists; reflexivity.
Qed.

Lemma non_array_history_ignored_witness :
  normalize (JStr "[{role:user,text:hi}]") = Ok []
  /\ exists rest,
       calls (chat_handler echo_client
                {| body_history := JStr "[{role:user,text:hi}]";
                   body_message := JStr "and then?"; req_file := None |} empty_world).2
       = ([] ++ StartChat {| cfg_history := None |} :: rest)%list.
Proof.
  exact (non_array_history_ignored echo_client
           {| body_history := JStr "[{role:user,text:hi}]";
              body_message := JStr "and then?"; req_file := None |} empty_world
           eq_refl eq_refl).
Defined.

(** X6.  A request with a message and no file sends exactly one text part,
    the message itself, and relays what the model client returns: status
    200 with the reply as [message], or status 500 with the message of
    the error as [details].  The disk is untouched. *)
Theorem text_request_relays_reply (client : model_client) (h m : jsval) (w : world)
    (ch : list content) :
  let req := {| body_history := h; body_message := m; req_file := None |} in
  let cfg := {| cfg_history := match ch with [] => None | _ :: _ => Some ch end |} in
  Js.truthy m = true ->
  normalize h = Ok ch ->
  start_outcome client cfg = Ok tt ->
  chat_handler client req w
  = (Ok match send_outcome client cfg [TextPart m] with
        | Ok reply => {| status := 200; json := MessageBody reply |}
        | Throw e => {| status := 500;
                        json := FailureBody "Failed to process chat message"
                                  (error_message e) |}
        end,
     {| files := files w;
        calls := (calls w ++ [StartChat cfg; SendMessage cfg [TextPart m]])%list |}).
Proof.
  cbn zeta. intros Hm Hn Hs. rewrite handler_spec. unfold handler_result.
  cbn [body_history body_message req_file cleaned]. rewrite Hm, Hn. cbn [negb andb].
  cbv zeta. unfold text_parts. rewrite Hm.
  assert (Hcfg : config_of ch
                 = {| cfg_history := match ch with [] => None | _ :: _ => Some ch end |})
    by (destruct ch; reflexivity).
  rewrite Hcfg, Hs. cbn [app]. destruct (send_outcome client _ _); reflexivity.
Qed.

Lemma text_request_relays_reply_witness :
  chat_handler echo_client
    {| body_history := JArr [plain_turn "user" "hi"; plain_turn "model" "hello"];
       body_message := JStr "and then?"; req_file := None |} staged_world
  = (Ok {| status := 200; json := MessageBody "ok" |},
     {| files := files staged_world;
        calls := ([] ++ [StartChat {| cfg_history := Some [entry "user" "hi"; entry "model" "hello"] |};
                         SendMessage {| cfg_history := Some [entry "user" "hi"; entry "model" "hello"] |}
                           [TextPart (JStr "and then?")]])%list |}).
Proof.
  exact (text_request_relays_reply echo_client
           (JArr [plain_turn "user" "hi"; plain_turn "model" "hello"]) (JStr "and then?")
           staged_world [entry "user" "hi"; entry "model" "hello"]
           eq_refl eq_refl eq_refl).
Defined.

(** X7.  When [startChat] fails nothing more is attempted: the answer is
    500 with the message of its error, no [sendMessage] is made, and the
    staged file, which has not been read, is removed. *)
Theorem start_failure_is_reported (client : model_client) (req : request) (w : world)
    (ch : list content) (e : js_error) :
  Js.truthy (body_message req) = true \/ is_Some (req_file req) ->
  normalize (body_history req) = Ok ch ->
  start_outcome client (config_of ch) = Throw e ->
  chat_handler client req w
  = (Ok {| status := 500;
           json := FailureBody "Failed to process chat message" (error_message e) |},
     {| files := match req_file req with
                 | Some f => delete (path f) (files w)
                 | None => files w
                 end;
        calls := (calls w ++ [StartChat (config_of ch)])%list |}).
Proof.
  intros Hguard Hn Hs.
  assert (Hg : negb (Js.truthy (body_message req))
               && negb (bool_decide (is_Some (req_file req))) = false).
  { destruct Hguard as [-> | Hf]; [reflexivity|].
    rewrite (bool_decide_eq_true_2 _ Hf). apply andb_false_r. }
  rewrite handler_spec. unfold handler_result. rewrite Hg, Hn. cbv zeta.
  rewrite Hs. reflexivity.
Qed.

Lemma start_failure_is_reported_witness :
  chat_handler refusing_client
    {| body_history := JArr [plain_turn "model" "hello"]; body_message := JStr "hi";
       req_file := Some staged_pdf |} staged_world
  = (Ok {| status := 500;
           json := FailureBody "Failed to process chat message"
                     "First content should be with role 'user'" |},
     {| files := delete pdf_path (files staged_world);
        calls := ([] ++ [StartChat (config_of [entry "model" "hello"])])%list |}).
Proof.
  refine (start_failure_is_reported refusing_client
            {| body_history := JArr [plain_turn "model" "hello"]; body_message := JStr "hi";
               req_file := Some staged_pdf |} staged_world [entry "model" "hello"]
            (Error "First content should be with role 'user'") _ eq_refl eq_refl).
  left. reflexivity.
Defined.

(** X8.  If the staged file has disappeared before the handler reads it,
    the request fails with the error of [readFileSync]: the chat has been
    started, nothing is sent to the model, the answer is 500. *)
Theorem missing_staged_file_fails (client : model_client) (h m : jsval)
    (f : staged_file) (w : world) (ch : list content) :
  let req := {| body_history := h; body_message := m; req_file := Some f |} in
  normalize h = Ok ch ->
  start_outcome client (config_of ch) = Ok tt ->
  files w !! path f = None ->
  chat_handler client req w
  = (Ok {| status := 500;
           json := FailureBody "Failed to process chat message"
                     ("ENOENT: no such file or directory, open '" +:+ path f +:+ "'") |},
     {| files := files w;
        calls := (calls w ++ [StartChat (config_of ch)])%list |}).
Proof.
  cbn zeta. intros Hn Hs Hf. rewrite handler_spec. unfold handler_result.
  cbn [body_history body_message req_file cleaned].
  rewrite is_Some_file, andb_false_r, Hn. cbv zeta. rewrite Hs, Hf.
  cbn [fst snd]. rewrite delete_id by exact Hf. reflexivity.
Qed.

Lemma missing_staged_file_fails_witness :
  chat_handler echo_client
    {| body_history := JUndefined; body_message := JStr "hi";
       req_file := Some staged_pdf |} empty_world
  = (Ok {| status := 500;
           json := FailureBody "Failed to process chat message"
                     ("ENOENT: no such file or directory, open '" +:+ path staged_pdf +:+ "'") |},
     {| files := files empty_world;
        calls := (calls empty_world ++ [StartChat (config_of [])])%list |}).
Proof.
  exact (missing_staged_file_fails echo_client JUndefined (JStr "hi") staged_pdf
           empty_world [] eq_refl eq_refl eq_refl).
Defined.

(** ** More on history normalisation *)

Lemma map_r_app {A B} (f : A -> result B) (l1 l2 : list A) :
  map_r f (l1 ++ l2)
  = (ys1 <- map_r f l1 ;; ys2 <- map_r f l2 ;; Ok (ys1 ++ ys2)%list).
Proof.
  induction l1 as [|x l1 IH]; cbn [app map_r rbind].
  - destruct (map_r f l2); reflexivity.
  - destruct (f x); cbn [rbind]; [|reflexivity]. rewrite IH.
    destruct (map_r f l1); cbn [rbind]; [|reflexivity].
    destruct (map_r f l2); reflexivity.
Qed.

Lemma map_r_converts (l : list jsval) :
  Forall turn_converts l -> exists mapped, map_r map_turn l = Ok mapped.
Proof.
  intros H. destruct (map_filter_kept l H) as (mapped & _ & Hm & _). eauto.
Qed.

Lemma map_r_ok_converts (l : list jsval) (mapped : list (option content)) :
  map_r map_turn l = Ok mapped -> Forall turn_converts l.
Proof.
  revert mapped. induction l as [|m l IH]; intros mapped H; [constructor|].
  cbn [map_r] in H. destruct (map_turn m) as [o|e] eqn:Ho; [|discriminate H].
  cbn [rbind] in H. destruct (map_r map_turn l) as [ys|e] eqn:Hl; [|discriminate H].
  constructor; [unfold turn_converts; rewrite Ho; reflexivity | eapply IH; reflexivity].
Qed.

(** X9.  One [null] among the turns makes the whole normalisation throw,
    whatever comes after it and however many good turns precede it: the
    callback reads [role] of [null]. *)
Theorem null_turn_throws (before after : list jsval) :
  Forall turn_converts before ->
  normalize (JArr (before ++ JNull :: after))
  = Throw (TypeError "Cannot read properties of null (reading 'role')").
Proof.
  intros Hb. unfold normalize. cbn [Js.truthy Js.isArray Js.elements andb].
  assert ((0 <? List.length (before ++ JNull :: after))%nat = true) as ->.
  { rewrite length_app. cbn [List.length]. apply Nat.ltb_lt. lia. }
  rewrite map_r_app. destruct (map_r_converts before Hb) as (mapped & ->).
  reflexivity.
Qed.

Lemma null_turn_throws_witness :
  normalize (JArr ([plain_turn "user" "hi"] ++ JNull :: [plain_turn "model" "hello"]))
  = Throw (TypeError "Cannot read properties of null (reading 'role')").
Proof.
  refine (null_turn_throws [plain_turn "user" "hi"] [plain_turn "model" "hello"] _).
  repeat constructor.
Defined.

(** X10.  Normalisation works turn by turn: the normalised history of two
    lists put end to end is the normalised history of the first followed
    by that of the second. *)
Theorem normalize_app (h1 h2 : list jsval) :
  Forall turn_converts h1 ->
  Forall turn_converts h2 ->
  exists n1 n2,
    normalize (JArr h1) = Ok n1
    /\ normalize (JArr h2) = Ok n2
    /\ normalize (JArr (h1 ++ h2)) = Ok (n1 ++ n2)%list.
Proof.
  intros H1 H2. exists (omap kept_entry h1), (omap kept_entry h2).
  rewrite !normalize_kept by (try apply Forall_app; auto).
  rewrite omap_app. auto.
Qed.

Lemma normalize_app_witness :
  exists n1 n2,
    normalize (JArr [plain_turn "user" "hi"]) = Ok n1
    /\ normalize (JArr [plain_turn "system" "x"; plain_turn "model" "hello"]) = Ok n2
    /\ normalize (JArr ([plain_turn "user" "hi"]
                        ++ [plain_turn "system" "x"; plain_turn "model" "hello"]))
       = Ok (n1 ++ n2)%list.
Proof.
  refine (normalize_app [plain_turn "user" "hi"]
            [plain_turn "system" "x"; plain_turn "model" "hello"] _ _);
    repeat constructor.
Defined.

Lemma kept_entry_valid (m : jsval) (c : content) :
  kept_entry m = Some c -> valid_entry c.
Proof.
  unfold kept_entry, turn_role.
  destruct (Js.get m "role") as [[| | | |r| |]|]; try discriminate.
  destruct (String.eqb_spec r "user") as [->|_]; cbn [orb].
  - destruct (derived_text m) as [t|]; [|discriminate].
    destruct (String.eqb_spec t "") as [|Ht]; [discriminate|]. intros [= <-].
    split; [left; reflexivity | exists t; split; [reflexivity | exact Ht]].
  - destruct (String.eqb_spec r "model") as [->|_]; [|discriminate].
    destruct (derived_text m) as [t|]; [|discriminate].
    destruct (String.eqb_spec t "") as [|Ht]; [discriminate|]. intros [= <-].
    split; [right; reflexivity | exists t; split; [reflexivity | exact Ht]].
Qed.

Lemma omap_length_le {A B} (f : A -> option B) (l : list A) :
  (List.length (omap f l) <= List.length l)%nat.
Proof.
  induction l as [|x l IH]; cbn [omap list_omap List.length]; [lia|].
  destruct (f x); cbn [List.length]; lia.
Qed.

(** X11.  Whatever the client sends as history, a history that normalises
    is fit for the model: every entry has role 'user' or 'model' and
    exactly one part with a non-empty text, and there are no more entries
    than turns. *)
Theorem normalize_valid (history : jsval) (out : list content) :
  normalize history = Ok out ->
  Forall valid_entry out
  /\ (List.length out <= List.length (Js.elements history))%nat.
Proof.
  unfold normalize.
  destruct (Js.truthy history && Js.isArray history
            && (0 <? List.length (Js.elements history))%nat) eqn:Hg.
  - destruct (map_r map_turn (Js.elements history)) as [mapped|e] eqn:Hm; [|discriminate].
    pose proof (map_r_ok_converts _ _ Hm) as Hc.
    destruct (map_filter_kept _ Hc) as (mapped' & kept & Hm' & Hf & Hk).
    rewrite Hm in Hm'. injection Hm' as <-. cbn [rbind]. rewrite Hf. cbn [rbind].
    intros [= <-]. rewrite Hk. split; [|apply omap_length_le].
    apply Forall_forall. intros c Hin.
    apply list_elem_of_omap in Hin as (m & _ & Hkept).
    exact (kept_entry_valid m c Hkept).
  - intros [= <-]. split; [constructor | cbn; lia].
Qed.

Lemma normalize_valid_witness :
  Forall valid_entry [entry "user" "hi"; entry "model" "hello"]
  /\ (List.length [entry "user" "hi"; entry "model" "hello"]
      <= List.length (Js.elements (JArr mixed_history)))%nat.
Proof.
  exact (normalize_valid (JArr mixed_history) [entry "user" "hi"; entry "model" "hello"]
           eq_refl).
Defined.

Lemma single_turn (msg : jsval) (r t : string) :
  turn_role msg = Some r ->
  derived_text msg = Ok t ->
  t <> "" ->
  normalize (JArr [msg]) = Ok [entry r t].
Proof.
  intros Hr Hd Ht.
  assert (Hget : exists v, Js.get msg "role" = Ok v).
  { unfold turn_role in Hr. destruct (Js.get msg "role"); [eauto | discriminate]. }
  destruct Hget as (v & Hget).
  rewrite normalize_kept.
  - cbn [omap list_omap]. unfold kept_entry. rewrite Hr, Hd.
    apply String.eqb_neq in Ht. rewrite Ht. reflexivity.
  - constructor; [|constructor]. unfold turn_converts.
    rewrite map_turn_spec, Hget, Hr, Hd. reflexivity.
Qed.

Lemma model_turn_role (msg : jsval) :
  strict_eq_str (field msg "role") "model" = true -> turn_role msg = Some "model".
Proof.
  unfold field, turn_role. destruct (Js.get msg "role") as [v|e]; [|discriminate].
  destruct v; try discriminate. cbn [strict_eq_str].
  intros H. apply String.eqb_eq in H as ->. reflexivity.
Qed.

(** X12.  The file label is for user turns only: a model turn with a
    non-empty text keeps exactly that text, whether or not it carries a
    [file]. *)
Theorem model_turn_ignores_attachment (msg : jsval) (t : string) :
  strict_eq_str (field msg "role") "model" = true ->
  field msg "text" = JStr t ->
  t <> "" ->
  normalize (JArr [msg]) = Ok [entry "model" t].
Proof.
  intros Hrole Htext Ht. apply single_turn; [apply model_turn_role, Hrole | | exact Ht].
  unfold derived_text.
  assert (strict_eq_str (field msg "role") "user" = false) as ->.
  { destruct (field msg "role"); try reflexivity. cbn [strict_eq_str] in *.
    apply String.eqb_eq in Hrole as ->. reflexivity. }
  cbn [andb]. unfold plain_text, Js.or. rewrite Htext. cbn [Js.truthy].
  apply String.eqb_neq in Ht. rewrite Ht. cbn [negb Js.truthy]. rewrite Ht. reflexivity.
Qed.

Lemma model_turn_ignores_attachment_witness :
  normalize (JArr [obj [("role", JStr "model"); ("text", JStr "done");
                        ("file", obj [("name", JStr "report.pdf")])]])
  = Ok [entry "model" "done"].
Proof.
  refine (model_turn_ignores_attachment
            (obj [("role", JStr "model"); ("text", JStr "done");
                  ("file", obj [("name", JStr "report.pdf")])]) "done" eq_refl eq_refl _).
  discriminate.
Defined.

Lemma model_role_not_user (msg : jsval) :
  turn_role msg = Some "model" -> strict_eq_str (field msg "role") "user" = false.
Proof.
  unfold turn_role, field. destruct (Js.get msg "role") as [v|e]; [|reflexivity].
  destruct v as [| |b|n|s|l|p]; try reflexivity. cbn [strict_eq_str].
  destruct (String.eqb_spec s "user") as [->|]; [|reflexivity].
  cbn. discriminate.
Qed.

(** X13.  A turn written with [message] instead of [text] is understood:
    when [text] is missing or falsy and there is no attachment label to
    build, the text of the entry is the [message] field. *)
Theorem message_field_fallback (msg : jsval) (r m : string) :
  turn_role msg = Some r ->
  r = "model" \/ has_attachment msg = false ->
  Js.truthy (field msg "text") = false ->
  field msg "message" = JStr m ->
  m <> "" ->
  normalize (JArr [msg]) = Ok [entry r m].
Proof.
  intros Hr Hplain Htext Hmsg Hm. apply single_turn; [exact Hr | | exact Hm].
  assert (Hp : plain_text msg = Ok m).
  { unfold plain_text, Js.or. rewrite Htext, Hmsg. cbn [Js.truthy].
    apply String.eqb_neq in Hm. rewrite Hm. reflexivity. }
  unfold derived_text. destruct Hplain as [-> | Hfile].
  - rewrite (model_role_not_user msg Hr). exact Hp.
  - rewrite Hfile, andb_false_r. exact Hp.
Qed.

Lemma message_field_fallback_witness :
  normalize (JArr [obj [("role", JStr "user"); ("message", JStr "hi there")]])
  = Ok [entry "user" "hi there"].
Proof.
  refine (message_field_fallback (obj [("role", JStr "user"); ("message", JStr "hi there")])
            "user" "hi there" eq_refl _ eq_refl eq_refl _).
  - right. reflexivity.
  - discriminate.
Defined.

(** ** More on MIME types *)

(** X14.  [getMimeType] only ever names one of six types: PDF, four audio
    types, or the catch-all binary type. *)
Theorem getMimeType_range (filePath : string) : In (getMimeType filePath) mime_types.
Proof.
  unfold getMimeType. rewrite extension_table. unfold mime_of_ext, mime_types.
  set (ext := toLowerCase _).
  destruct (String.eqb_spec ext "pdf") as [->|_]; [cbn; tauto|].
  destruct (String.eqb_spec ext "mp3") as [->|_]; [cbn; tauto|].
  destruct (String.eqb_spec ext "wav") as [->|_]; [cbn; tauto|].
  destruct (String.eqb_spec ext "ogg") as [->|_]; [cbn; tauto|].
  destruct (String.eqb_spec ext "m4a") as [->|_]; cbn; tauto.
Qed.







(** ** Staging and the whole route *)

Lemma append_assoc (a b c : string) : (a +:+ b) +:+ c = a +:+ (b +:+ c).
Proof.
  induction a as [|x a IH]; [reflexivity|].
  rewrite !append_String, IH. reflexivity.
Qed.

(** When multer lets a named upload through. *)
Lemma upload_single_named (e : env) (u : upload) (w : world) :
  originalname u <> "" ->
  upload_single e "file" (Some u) w
  = if negb (String.eqb (fieldname u) "file")
    then (Throw (MulterError "LIMIT_UNEXPECTED_FILE"), w)
    else match fileFilter u with
         | Throw err => (Throw err, w)
         | Ok _ =>
             if (fileSize <? N.of_nat (String.length (bytes u)))%N
             then (Throw (MulterError "LIMIT_FILE_SIZE"), w)
             else
               let p := uploadDir e +:+ "/" +:+ storage_filename e u in
               (Ok (Some {| destination := uploadDir e;
                            filename := storage_filename e u;
                            path := p |}),
                {| files := <[p := bytes u]> (files w); calls := calls w |})
         end.
Proof.
  intros Hname. apply String.eqb_neq in Hname.
  unfold upload_single. rewrite Hname.
  destruct (negb (String.eqb (fieldname u) "file")); [reflexivity|].
  unfold bind, lift, throw, ret, Fs.writeFile.
  destruct (fileFilter u); [|reflexivity].
  destruct (fileSize <? N.of_nat (String.length (bytes u)))%N; reflexivity.
Qed.

(** X16.  A file reaches the handler only after every check of the upload
    configuration: it came in the field [file], its declared type passed
    the filter, it is at most 50 MiB (52428800 bytes), and it sits in the
    [uploads] directory under [file-<time>-<random>-<original name>] with
    exactly the uploaded bytes; nothing else on the disk has changed. *)
Theorem staged_upload_checked (e : env) (u : upload) (w w' : world) (f : staged_file) :
  upload_single e "file" (Some u) w = (Ok (Some f), w') ->
  fieldname u = "file"
  /\ fileFilter u = Ok true
  /\ (N.of_nat (String.length (bytes u)) <= 52428800)%N
  /\ path f = (dirname e +:+ "/uploads") +:+ "/"
              +:+ "file-" +:+ pretty (now e) +:+ "-" +:+ pretty (random e)
              +:+ "-" +:+ originalname u
  /\ files w' = <[path f := bytes u]> (files w)
  /\ calls w' = calls w.
Proof.
  intros H.
  destruct (String.eqb_spec (originalname u) "") as [Hempty|Hname].
  { unfold upload_single in H. rewrite Hempty in H. cbn in H. discriminate H. }
  rewrite (upload_single_named e u w Hname) in H.
  destruct (String.eqb_spec (fieldname u) "file") as [Hfield|]; [|discriminate H].
  cbn [negb] in H.
  assert (Hfilter : fileFilter u = Ok true).
  { rewrite fileFilter_spec in *.
    destruct (startsWith (mimetype u) "audio/" || startsWith (mimetype u) "application/pdf");
      [reflexivity | discriminate H]. }
  rewrite Hfilter in H.
  destruct (fileSize <? N.of_nat (String.length (bytes u)))%N eqn:Hsize; [discriminate H|].
  apply N.ltb_ge in Hsize. cbv zeta in H. injection H as <- <-.
  cbn [path files calls]. unfold storage_filename, uploadDir. rewrite Hfield.
  split; [reflexivity|]. split; [exact Hfilter|]. split; [exact Hsize|].
  assert (Hpath : (dirname e +:+ "/uploads") +:+ "/"
                  +:+ "file" +:+ "-" +:+ (pretty (now e) +:+ "-" +:+ pretty (random e))
                  +:+ "-" +:+ originalname u
                  = (dirname e +:+ "/uploads") +:+ "/"
                    +:+ "file-" +:+ pretty (now e) +:+ "-" +:+ pretty (random e)
                    +:+ "-" +:+ originalname u).
  { f_equal. f_equal. rewrite !append_assoc. reflexivity. }
  rewrite Hpath. repeat split.
Qed.

Lemma staged_upload_checked_witness :
  fieldname pdf_upload = "file"
  /\ fileFilter pdf_upload = Ok true
  /\ (N.of_nat (String.length (bytes pdf_upload)) <= 52428800)%N
  /\ path staged_pdf = (dirname test_env +:+ "/uploads") +:+ "/"
              +:+ "file-" +:+ pretty (now test_env) +:+ "-" +:+ pretty (random test_env)
              +:+ "-" +:+ originalname pdf_upload
  /\ files staged_world = <[path staged_pdf := bytes pdf_upload]> (files empty_world)
  /\ calls staged_world = calls empty_world.
Proof.
  refine (staged_upload_checked test_env pdf_upload empty_world staged_world staged_pdf _).
  vm_compute. reflexivity.
Defined.

(** An upload that passes every check of the upload configuration. *)
Lemma accepted_upload_staged (e : env) (u : upload) (w : world) :
  fieldname u = "file" ->
  originalname u <> "" ->
  fileFilter u = Ok true ->
  (N.of_nat (String.length (bytes u)) <= fileSize)%N ->
  let p := uploadDir e +:+ "/" +:+ storage_filename e u in
  upload_single e "file" (Some u) w
  = (Ok (Some {| destination := uploadDir e; filename := storage_filename e u; path := p |}),
     {| files := <[p := bytes u]> (files w); calls := calls w |}).
Proof.
  intros Hfield Hname Hfilter Hsize. rewrite (upload_single_named e u w Hname).
  rewrite Hfield, Hfilter. apply N.ltb_ge in Hsize. rewrite Hsize. reflexivity.
Qed.

(** X18.  A request with an accepted upload always gets an answer from the
    handler, 200 or 500, and leaves no file behind: after the route the
    staged path is free again and every other file is as it was.  If the
    path was free before, the disk is exactly as before. *)
Theorem route_restores_disk (client : model_client) (e : env) (h m : jsval)
    (u : upload) (w : world) :
  fieldname u = "file" ->
  originalname u <> "" ->
  fileFilter u = Ok true ->
  (N.of_nat (String.length (bytes u)) <= fileSize)%N ->
  let p := uploadDir e +:+ "/" +:+ storage_filename e u in
  exists r w',
    post_api_chat client e {| form_history := h; form_message := m; form_file := Some u |} w
    = (Responded r, w')
    /\ (status r = 200 \/ status r = 500)
    /\ files w' = delete p (files w)
    /\ (files w !! p = None -> files w' = files w).
Proof.
  intros Hfield Hname Hfilter Hsize p. unfold post_api_chat. cbn [form_file form_history form_message].
  rewrite (accepted_upload_staged e u w Hfield Hname Hfilter Hsize). cbv zeta. fold p.
  rewrite handler_spec. cbn [req_file cleaned path files calls fst snd].
  eexists _, _. split; [reflexivity|]. cbn [files].
  rewrite delete_insert_eq. split.
  - unfold handler_result. cbn [body_message req_file body_history].
    rewrite is_Some_file, andb_false_r. cbv zeta.
    destruct (normalize h); [|right; reflexivity].
    destruct (start_outcome client _); [|right; reflexivity].
    cbn [path]. rewrite lookup_insert_eq.
    destruct (send_outcome client _ _); [left|right]; reflexivity.
  - split; [reflexivity|]. intros Hfree. apply delete_id, Hfree.
Qed.

Lemma route_restores_disk_witness :
  exists r w',
    post_api_chat failing_client test_env
      {| form_history := JUndefined; form_message := JStr "hi";
         form_file := Some pdf_upload |} empty_world
    = (Responded r, w')
    /\ (status r = 200 \/ status r = 500)
    /\ files w' = delete (uploadDir test_env +:+ "/" +:+ storage_filename test_env pdf_upload)
                    (files empty_world)
    /\ (files empty_world !! (uploadDir test_env +:+ "/" +:+ storage_filename test_env pdf_upload)
        = None -> files w' = files empty_world).
Proof.
  refine (route_restores_disk failing_client test_env JUndefined (JStr "hi")
            pdf_upload empty_world eq_refl _ eq_refl _).
  - discriminate.
  - vm_compute. discriminate.
Defined.





(** ** The browser client against the server *)

(** X20.  The browser client never earns the 400 answer: whenever its own
    guard lets a submit through (a text after trimming, or a selected file
    with a name), the request it builds is not answered with status 400. *)
Theorem client_never_gets_400 (stringify : list jsval -> string)
    (chatHistory : list jsval) (messageText : string) (fileToSend : option client_file)
    (client : model_client) (e : env) (w : world) (r : response) :
  submit_allowed messageText fileToSend = true ->
  (forall f, fileToSend = Some f -> file_name f <> "") ->
  (post_api_chat client e (client_request stringify chatHistory messageText fileToSend) w).1
  = Responded r ->
  status r <> 400.
Proof.
  intros Hguard Hnamed. unfold post_api_chat, client_request.
  cbn [form_file form_history form_message].
  destruct fileToSend as [f|]; cbn [fmap option_fmap option_map].
  - assert (Hname : originalname (form_upload f) <> "") by exact (Hnamed f eq_refl).
    rewrite (upload_single_named e _ w Hname).
    destruct (negb (String.eqb (fieldname (form_upload f)) "file")); [discriminate|].
    destruct (fileFilter (form_upload f)); [|discriminate].
    destruct (fileSize <? _)%N; [discriminate|]. cbv beta iota zeta.
    rewrite handler_spec. intros [= <-] H400.
    apply handler_result_status in H400 as [_ Hfile]. discriminate Hfile.
  - unfold submit_allowed in Hguard.
    rewrite (bool_decide_eq_false_2 (is_Some None)), orb_false_r in Hguard
      by (intros [? ?]; discriminate).
    rewrite Hguard. cbn [upload_single ret].
    rewrite handler_spec. intros [= <-] H400.
    apply handler_result_status in H400 as [Hm _]. cbn [body_message Js.truthy] in Hm.
    rewrite Hguard in Hm. discriminate Hm.
Qed.

Lemma client_never_gets_400_witness :
  status {| status := 200; json := MessageBody "ok" |} <> 400.
Proof.
  refine (client_never_gets_400 opaque_json [] "" (Some picked_file)
            echo_client test_env empty_world
            {| status := 200; json := MessageBody "ok" |} eq_refl _ _).
  - intros f [= <-]. discriminate.
  - vm_compute. reflexivity.
Defined.

Lemma normalize_non_array (h : jsval) : Js.isArray h = false -> normalize h = Ok [].
Proof. intros H. unfold normalize. rewrite H, andb_false_r. reflexivity. Qed.

Lemma handler_calls_without_history (client : model_client) (req : request)
    (fs : gmap string string) :
  normalize (body_history req) = Ok [] ->
  Forall (fun c => cfg_history (call_config c) = None) (handler_result client req fs).2.
Proof.
  intros Hn. unfold handler_result. rewrite Hn.
  destruct (negb (Js.truthy (body_message req))
            && negb (bool_decide (is_Some (req_file req)))); [constructor|].
  cbv zeta. change (config_of []) with {| cfg_history := None |}.
  destruct (start_outcome client _); [|repeat constructor].
  match goal with |- context [match ?r with Ok _ => _ | Throw _ => _ end] =>
    destruct r as [fp|e] end; [|repeat constructor].
  destruct (send_outcome client _ _); repeat constructor.
Qed.

(** X21.  The conversation history kept by the browser client never
    reaches the model: the client sends it as one string inside the
    multipart form, the handler only accepts an array, and so every call
    the handler makes for such a request carries no history. *)
Theorem client_history_never_reaches_model (stringify : list jsval -> string)
    (chatHistory : list jsval) (messageText : string) (fileToSend : option client_file)
    (client : model_client) (e : env) (w : world) :
  exists new,
    calls (post_api_chat client e
             (client_request stringify chatHistory messageText fileToSend) w).2
    = (calls w ++ new)%list
    /\ Forall (fun c => cfg_history (call_config c) = None) new.
Proof.
  unfold post_api_chat, client_request. cbn [form_file form_history form_message].
  destruct (upload_single e "file" (form_upload <$> fileToSend) w)
    as [[file|err] w1] eqn:Hup.
  - assert (Hcalls : calls w1 = calls w).
    { destruct fileToSend as [f|]; cbn [fmap option_fmap option_map] in Hup.
      - unfold upload_single in Hup.
        destruct (String.eqb (originalname (form_upload f)) "");
          [injection Hup as _ <-; reflexivity|].
        destruct (negb (String.eqb (fieldname (form_upload f)) "file")); [discriminate Hup|].
        unfold bind, lift, throw, ret, Fs.writeFile in Hup.
        destruct (fileFilter (form_upload f)); [|discriminate Hup].
        destruct (fileSize <? _)%N; [discriminate Hup|].
        injection Hup as _ <-. reflexivity.
      - injection Hup as _ <-. reflexivity. }
    rewrite handler_spec. cbn [snd calls]. rewrite Hcalls.
    eexists. split; [reflexivity|].
    apply handler_calls_without_history, normalize_non_array. reflexivity.
  - exists []. rewrite app_nil_r. split; [|constructor]. cbn [snd].
    destruct fileToSend as [f|]; cbn [fmap option_fmap option_map] in Hup.
    + unfold upload_single in Hup.
      destruct (String.eqb (originalname (form_upload f)) ""); [discriminate Hup|].
      destruct (negb (String.eqb (fieldname (form_upload f)) "file"));
        [injection Hup as _ <-; reflexivity|].
      unfold bind, lift, throw, ret, Fs.writeFile in Hup.
      destruct (fileFilter (form_upload f)); [|injection Hup as _ <-; reflexivity].
      destruct (fileSize <? _)%N; [injection Hup as _ <-; reflexivity | discriminate Hup].
    + discriminate Hup.
Qed.

(** X22.  Every user turn the browser client records would be kept by the
    normaliser if it were delivered as an array: a text-only turn keeps
    its text, and a turn with a file gets the file label appended, the
    text being the typed message or, for a file sent alone, the
    placeholder "File: <name>" the client stored. *)
Theorem client_entry_survives (messageText : string) (fileToSend : option client_file) :
  submit_allowed messageText fileToSend = true ->
  normalize (JArr [historyEntry messageText fileToSend])
  = Ok [entry "user"
          match fileToSend with
          | None => messageText
          | Some f =>
              trim ((if String.eqb messageText "" then "File: " +:+ file_name f
                     else messageText)
                    +:+ " [File: "
                    +:+ (if String.eqb (file_name f) "" then "uploaded file"
                         else file_name f)
                    +:+ "]")
          end].
Proof.
  intros Hguard. destruct fileToSend as [f|].
  - apply (attachment_turn_entry (historyEntry messageText (Some f))); [reflexivity..|].
    unfold attachment_text, historyEntry.
    change (field (obj _) "text") with
      (JStr (if negb (String.eqb messageText "") then messageText
             else "File: " +:+ file_name f)).
    change (field (field (obj _) "file") "name") with (JStr (file_name f)).
    unfold Js.or. cbn [Js.truthy].
    destruct (String.eqb messageText "") eqn:Hm; cbn [negb].
    + change (String.eqb ("File: " +:+ file_name f) "") with false. cbn [negb Js.to_string rbind].
      destruct (String.eqb (file_name f) ""); reflexivity.
    + rewrite Hm. cbn [negb Js.to_string rbind].
      destruct (String.eqb (file_name f) ""); reflexivity.
  - unfold submit_allowed in Hguard.
    rewrite (bool_decide_eq_false_2 (is_Some None)), orb_false_r in Hguard
      by (intros [? ?]; discriminate).
    unfold historyEntry. rewrite Hguard.
    apply negb_true_iff, String.eqb_neq in Hguard.
    apply (normalize_plain [("user", messageText)]).
    constructor; [|constructor]. split; [left; reflexivity | exact Hguard].
Qed.

Lemma client_entry_survives_witness :
  normalize (JArr [historyEntry "" (Some picked_file)])
  = Ok [entry "user" "File: a.pdf [File: a.pdf]"].
Proof.
  exact (client_entry_survives "" (Some picked_file) eq_refl).
Defined.

(** ** The base64 payload *)

#[local] Ltac Zify.zify_post_hook ::= Z.to_euclidean_division_equations.

Lemma sextet_index (i : nat) :
  (i < 64)%nat ->
  let c := default "="%char (String.get i base64_alphabet) in
  unsextet c = Some (N.of_nat i) /\ Ascii.eqb c "=" = false.
Proof.
  intros Hi. do 64 (destruct i as [|i]; [split; reflexivity|]). lia.
Qed.

Lemma unsextet_sextet (n : N) :
  unsextet (sextet n) = Some (n mod 64)%N /\ Ascii.eqb (sextet n) "=" = false.
Proof.
  unfold sextet.
  assert (Hi : (N.to_nat (n mod 64) < 64)%nat) by lia.
  destruct (sextet_index _ Hi) as [Hu Hp]. cbv zeta in Hu, Hp.
  rewrite Hu, Hp, N2Nat.id. split; reflexivity.
Qed.

Lemma byte_code (n : N) (a : ascii) : (n mod 256 = code a)%N -> byte n = a.
Proof. intros H. unfold byte. rewrite H. apply ascii_N_embedding. Qed.

Lemma code_bound (a : ascii) : (code a < 256)%N.
Proof. apply N_ascii_bounded. Qed.

Lemma base64_round_trip (s : string) : base64_decode (base64 s) = Some s.
Proof.
  revert s. fix IH 1. intros [|a [|b [|c r]]].
  - reflexivity.
  - cbn [base64 base64_decode].
    pose proof (code_bound a).
    repeat match goal with
           | |- context [unsextet (sextet ?n)] =>
               rewrite (proj1 (unsextet_sextet n))
           end.
    cbn [Ascii.eqb Bool.eqb andb String.eqb]. cbv zeta.
    f_equal. f_equal. apply byte_code. lia.
  - cbn [base64 base64_decode].
    pose proof (code_bound a). pose proof (code_bound b).
    repeat match goal with
           | |- context [unsextet (sextet ?n)] =>
               rewrite (proj1 (unsextet_sextet n))
           | |- context [Ascii.eqb (sextet ?n) "="] =>
               rewrite (proj2 (unsextet_sextet n))
           end.
    cbn [Ascii.eqb Bool.eqb andb String.eqb]. cbv zeta.
    f_equal. f_equal; [apply byte_code; lia|]. f_equal. apply byte_code. lia.
  - cbn [base64 base64_decode].
    pose proof (code_bound a). pose proof (code_bound b). pose proof (code_bound c).
    repeat match goal with
           | |- context [unsextet (sextet ?n)] =>
               rewrite (proj1 (unsextet_sextet n))
           | |- context [Ascii.eqb (sextet ?n) "="] =>
               rewrite (proj2 (unsextet_sextet n))
           end.
    rewrite IH. cbv zeta.
    f_equal. f_equal; [apply byte_code; lia|].
    f_equal; [apply byte_code; lia|]. f_equal. apply byte_code. lia.
Qed.

(** X23.  [fileToBase64] only reads: the world is unchanged, a missing
    file makes it throw the error of [readFileSync], and the string it
    returns for an existing file is a base64 text that decodes back to
    exactly the bytes of the file. *)
Theorem fileToBase64_round_trip (filePath : string) (w : world) :
  match files w !! filePath with
  | Some b =>
      exists data, fileToBase64 filePath w = (Ok data, w)
                   /\ base64_decode data = Some b
  | None =>
      fileToBase64 filePath w
      = (Throw (Error ("ENOENT: no such file or directory, open '" +:+ filePath +:+ "'")), w)
  end.
Proof.
  unfold fileToBase64, bind, Fs.readFileSync, ret.
  destruct (files w !! filePath) as [b|]; [|reflexivity].
  exists (base64 b). split; [reflexivity | apply base64_round_trip].
Qed.

(** X24.  The payload is four characters for every three bytes of the
    file, rounded up: its length is 4 * ceil(n / 3). *)
Theorem base64_length (s : string) :
  String.length (base64 s) = (4 * ((String.length s + 2) / 3))%nat.
Proof.
  revert s. fix IH 1. intros [|a [|b [|c r]]]; try reflexivity.
  cbn [base64 String.length]. rewrite IH.
  replace (S (S (S (String.length r))) + 2)%nat
    with ((String.length r + 2) + 1 * 3)%nat by lia.
  rewrite Nat.div_add by discriminate. lia.
Qed.
